(** * Exam booking system: a location-indexed binary search tree

    Shallow embedding of [src/main.py] (classes [Exam] and
    [ExamBookingSystem]) and the properties of its specification.

    Conventions of the embedding.
    - Python integers are unbounded: [Z].  [bool] is a subclass of [int]
      in Python, so [True]/[False] are the integers 1/0 and need no case
      of their own.
    - A [str] is a [string]; a character of a [string] stands for the code
      point of the same number (0..255).  In that range the regular
      expression class [\d] is exactly ['0'..'9'].
    - The dataclass [Exam] does not enforce its annotations, and
      [validate_exam_data] tests the classes of three fields with
      [isinstance]: those fields hold a [pyobj].
    - Every exception of the module is a [ValueError]; the raise sites are
      told apart by their message, kept here in structured form.
    - A method is a function from the object's state to an [outcome], which
      carries the state the object is left in, whether the method returns
      or raises.
    - A record is not modified by its owner once it has been passed to
      [book_exam] (the specification takes records as immutable values),
      and the attributes of the index are written by its methods only. *)

From Stdlib Require Import ZArith List String Ascii Bool Lia.
From Stdlib Require Import Sorting.Sorted Sorting.Permutation.
Import ListNotations.
Local Open Scope Z_scope.

(** ** Values *)

(** [datetime.datetime] (naive), and the [datetime.date] that its method
    [date()] returns. *)
Record datetime := mkDatetime {
  year : Z; month : Z; day : Z;
  hour : Z; minute : Z; second : Z; microsecond : Z }.

Record calendar_day := mkDay { day_year : Z; day_month : Z; day_day : Z }.

(** [d.date()] *)
Definition datetime_date (d : datetime) : calendar_day :=
  mkDay (year d) (month d) (day d).

(** [==] on [datetime.date] objects *)
Definition day_eqb (a b : calendar_day) : bool :=
  (day_year a =? day_year b) && (day_month a =? day_month b)
  && (day_day a =? day_day b).

(** The objects a field of an [Exam] may hold. *)
Inductive pyobj :=
| PyInt (n : Z)
| PyDatetime (d : datetime)
| PyStr (s : string)
| PyNone.

Definition isinstance_int (o : pyobj) : bool :=
  match o with PyInt _ => true | _ => false end.

Definition isinstance_datetime (o : pyobj) : bool :=
  match o with PyDatetime _ => true | _ => false end.

(** The integer held by an object of class [int], the timestamp held by
    one of class [datetime].  The code reads them only from fields that
    passed the [isinstance] tests of [validate_exam_data]
    (see [validate_typed]); the value chosen for other objects is never
    observed. *)
Definition int_of (o : pyobj) : Z :=
  match o with PyInt n => n | _ => 0 end.

Definition datetime_of (o : pyobj) : datetime :=
  match o with PyDatetime d => d | _ => mkDatetime 0 0 0 0 0 0 0 end.

(** [class Exam] *)
Record Exam := mkExam {
  course_id : string;
  location : pyobj;
  date : pyobj;
  num_students : pyobj }.

(** [Optional[Node]]: [NoNode] is [None]; [Node] is an object of the inner
    class [Node] with its four attributes.  Child references are owned by
    their parent alone, so updating a node in place is rebuilding the path
    that leads to it. *)
Inductive tree :=
| NoNode
| Node (exam : Exam) (node_left node_right : tree) (node_location : Z).

(** [Node.__init__] *)
Definition Node_init (exam : Exam) : tree :=
  Node exam NoNode NoNode (int_of (location exam)).

(** [class ExamBookingSystem]: the attributes set by [__init__]. *)
Record ExamBookingSystem := mkSystem { root : tree; size : Z }.

(** [ExamBookingSystem()] *)
Definition init : ExamBookingSystem := mkSystem NoNode 0.

(** ** Exceptions and methods *)

Inductive message :=
| Invalid_course_ID_format (course_id : string)
| Invalid_location (location : pyobj)
| Invalid_date_format
| Invalid_number_of_students (num_students : pyobj)
| Room_is_already_booked_for (location date : pyobj)
| Location_range_must_be_integers
| Start_location_must_be_le_end_location.

Inductive exn :=
| ValueError (msg : message)
| AttributeError.

Inductive outcome (A : Type) :=
| Return (a : A) (self : ExamBookingSystem)
| Raise (e : exn) (self : ExamBookingSystem).
Arguments Return {A} a self.
Arguments Raise {A} e self.

Definition method (A : Type) : Type := ExamBookingSystem -> outcome A.

Definition ret {A} (a : A) : method A := fun self => Return a self.

Definition raise {A} (e : exn) : method A := fun self => Raise e self.

Definition bind {A B} (m : method A) (k : A -> method B) : method B :=
  fun self =>
    match m self with
    | Return a self' => k a self'
    | Raise e self' => Raise e self'
    end.

Definition get_root : method tree := fun self => Return (root self) self.

Definition set_root (t : tree) : method unit :=
  fun self => Return tt (mkSystem t (size self)).

(** [self.size += 1] *)
Definition incr_size : method unit :=
  fun self => Return tt (mkSystem (root self) (size self + 1)).

Declare Scope method_scope.
Delimit Scope method_scope with method.
Notation "x <- m ;; k" := (bind m (fun x => k))
  (at level 61, m at next level, right associativity) : method_scope.
Notation "m ;;; k" := (bind m (fun _ => k))
  (at level 61, right associativity) : method_scope.
Local Open Scope method_scope.

(** ** Regular expression of the course identifier *)

Inductive atom :=
| Upper                  (* [A-Z] *)
| Digit                  (* \d *)
| Lit (c : ascii).

Definition atom_matches (a : atom) (c : ascii) : bool :=
  let n := Z.of_nat (nat_of_ascii c) in
  match a with
  | Upper => (65 <=? n) && (n <=? 90)
  | Digit => (48 <=? n) && (n <=? 57)
  | Lit c' => Ascii.eqb c c'
  end.

(** Consume one character per atom from the start of the string; the
    rest of the string is returned. *)
Fixpoint match_atoms (p : list atom) (s : string) : option string :=
  match p with
  | [] => Some s
  | a :: p' =>
      match s with
      | EmptyString => None
      | String c s' => if atom_matches a c then match_atoms p' s' else None
      end
  end.

(** [$] without [re.MULTILINE]: at the end of the string, or just before
    a newline that is the last character of the string. *)
Definition at_dollar (rest : string) : bool :=
  match rest with
  | EmptyString => true
  | String c EmptyString => Ascii.eqb c "010"%char
  | _ => false
  end.

(** [[A-Z]{3}-\d{3}-\d{3}] *)
Definition course_id_atoms : list atom :=
  [Upper; Upper; Upper; Lit "-"; Digit; Digit; Digit; Lit "-";
   Digit; Digit; Digit].

(** [re.match(r'^[A-Z]{3}-\d{3}-\d{3}$', s)] as a truth value *)
Definition re_match_course_id (s : string) : bool :=
  match match_atoms course_id_atoms s with
  | Some rest => at_dollar rest
  | None => false
  end.

(** ** Methods of [ExamBookingSystem] *)

Definition validate_exam_data (exam : Exam) : method bool :=
  if negb (re_match_course_id (course_id exam)) then
    raise (ValueError (Invalid_course_ID_format (course_id exam)))
  else if negb (isinstance_int (location exam))
          || (int_of (location exam) <=? 0) then
    raise (ValueError (Invalid_location (location exam)))
  else if negb (isinstance_datetime (date exam)) then
    raise (ValueError Invalid_date_format)
  else if negb (isinstance_int (num_students exam))
          || (int_of (num_students exam) <=? 0) then
    raise (ValueError (Invalid_number_of_students (num_students exam)))
  else ret true.

(** The [while current:] loop of [find_exam_by_location_and_date]. *)
Fixpoint find_loop (current : tree) (loc : Z) (dt : datetime)
  : option Exam :=
  match current with
  | NoNode => None
  | Node exam node_left node_right node_location =>
      if loc =? node_location then
        if day_eqb (datetime_date (datetime_of (date exam)))
                   (datetime_date dt)
        then Some exam
        else None
      else if loc <? node_location then find_loop node_left loc dt
      else find_loop node_right loc dt
  end.

Definition find_exam_by_location_and_date (loc : Z) (dt : datetime)
  : method (option Exam) :=
  current <- get_root ;;
  ret (find_loop current loc dt).

(** [_insert_recursive] returns its boolean together with the node it was
    given, as the in-place updates leave it. *)
Fixpoint _insert_recursive (node : tree) (exam : Exam)
  : method (bool * tree) :=
  match node with
  | NoNode => raise AttributeError       (* None has no attribute location *)
  | Node e node_left node_right node_location =>
      if int_of (location exam) =? node_location then ret (false, node)
      else if int_of (location exam) <? node_location then
        match node_left with
        | NoNode =>
            incr_size ;;;
            ret (true, Node e (Node_init exam) node_right node_location)
        | Node _ _ _ _ =>
            r <- _insert_recursive node_left exam ;;
            ret (fst r, Node e (snd r) node_right node_location)
        end
      else
        match node_right with
        | NoNode =>
            incr_size ;;;
            ret (true, Node e node_left (Node_init exam) node_location)
        | Node _ _ _ _ =>
            r <- _insert_recursive node_right exam ;;
            ret (fst r, Node e node_left (snd r) node_location)
        end
  end.

Definition book_exam (exam : Exam) : method bool :=
  validate_exam_data exam ;;;
  existing_exam <- find_exam_by_location_and_date
                     (int_of (location exam)) (datetime_of (date exam)) ;;
  match existing_exam with
  | Some _ =>
      raise (ValueError
               (Room_is_already_booked_for (location exam) (date exam)))
  | None =>
      r <- get_root ;;
      match r with
      | NoNode =>
          set_root (Node_init exam) ;;;
          incr_size ;;;
          ret true
      | Node _ _ _ _ =>
          res <- _insert_recursive r exam ;;
          set_root (snd res) ;;;
          ret (fst res)
      end
  end.

(** [_find_in_range_recursive] appends to the list [result] it is given;
    the list as the call leaves it is returned. *)
Fixpoint _find_in_range_recursive (node : tree) (start_loc end_loc : Z)
  (result : list Exam) : list Exam :=
  match node with
  | NoNode => result
  | Node exam node_left node_right node_location =>
      let result :=
        if (start_loc <=? node_location) && (node_location <=? end_loc)
        then result ++ [exam] else result in
      let result :=
        if start_loc <? node_location
        then _find_in_range_recursive node_left start_loc end_loc result
        else result in
      if end_loc >? node_location
      then _find_in_range_recursive node_right start_loc end_loc result
      else result
  end.

(** [sorted(result, key=lambda x: x.location)].  [sorted] is stable, and
    a stable sort has one possible output: insertion that keeps an
    element before the equal keys that followed it computes it. *)
Fixpoint insert_sorted (x : Exam) (l : list Exam) : list Exam :=
  match l with
  | [] => [x]
  | y :: l' =>
      if int_of (location x) <=? int_of (location y) then x :: l
      else y :: insert_sorted x l'
  end.

Fixpoint sorted_by_location (l : list Exam) : list Exam :=
  match l with
  | [] => []
  | x :: l' => insert_sorted x (sorted_by_location l')
  end.

Definition find_exams_in_range (start_loc end_loc : pyobj)
  : method (list Exam) :=
  if negb (isinstance_int start_loc && isinstance_int end_loc) then
    raise (ValueError Location_range_must_be_integers)
  else if int_of start_loc >? int_of end_loc then
    raise (ValueError Start_location_must_be_le_end_location)
  else
    r <- get_root ;;
    ret (sorted_by_location
           (_find_in_range_recursive r (int_of start_loc) (int_of end_loc)
              [])).

(** ** Callers

    A caller in the manner of [run_tests]: one call of [book_exam] after
    another on the same object, an exception being caught before the next
    call.  A call is successful when it returns [True]. *)

Definition state_after {A} (o : outcome A) : ExamBookingSystem :=
  match o with Return _ self | Raise _ self => self end.

Definition succeeded (o : outcome bool) : bool :=
  match o with Return true _ => true | _ => false end.

Fixpoint book_all (self : ExamBookingSystem) (exams : list Exam)
  : ExamBookingSystem :=
  match exams with
  | [] => self
  | e :: es => book_all (state_after (book_exam e self)) es
  end.

(** The records of the successful calls, in the order of the calls. *)
Fixpoint booked (self : ExamBookingSystem) (exams : list Exam)
  : list Exam :=
  match exams with
  | [] => []
  | e :: es =>
      let o := book_exam e self in
      (if succeeded o then [e] else []) ++ booked (state_after o) es
  end.

(** The number of successful calls. *)
Fixpoint successes (self : ExamBookingSystem) (exams : list Exam) : Z :=
  match exams with
  | [] => 0
  | e :: es =>
      let o := book_exam e self in
      (if succeeded o then 1 else 0) + successes (state_after o) es
  end.

(** ** Vocabulary of the properties *)

(** In-order traversal: the key and the record of every node. *)
Fixpoint nodes (t : tree) : list (Z * Exam) :=
  match t with
  | NoNode => []
  | Node e l r k => nodes l ++ (k, e) :: nodes r
  end.

Definition keys (t : tree) : list Z := map fst (nodes t).

Definition inorder (t : tree) : list Exam := map snd (nodes t).

Definition room (e : Exam) : Z := int_of (location e).

(** The binary-search-tree property. *)
Fixpoint bst (t : tree) : Prop :=
  match t with
  | NoNode => True
  | Node _ l r k =>
      Forall (fun x => x < k) (keys l) /\ Forall (fun x => k < x) (keys r)
      /\ bst l /\ bst r
  end.

(** The key of every node is the room number of its record. *)
Definition keyed (t : tree) : Prop :=
  Forall (fun p => fst p = room (snd p)) (nodes t).

(** The record passes [validate_exam_data]. *)
Definition valid (e : Exam) : Prop :=
  forall self, validate_exam_data e self = Return true self.

Record wf (self : ExamBookingSystem) : Prop := mkWf {
  wf_bst : bst (root self);
  wf_keyed : keyed (root self);
  wf_valid : Forall valid (inorder (root self));
  wf_size : size self = Z.of_nat (List.length (nodes (root self))) }.

(** The inclusive range test of the specification. *)
Definition in_range (low high : Z) (e : Exam) : bool :=
  (low <=? room e) && (room e <=? high).

(** Linear scan over a list of records. *)
Definition linear_scan (low high : Z) (l : list Exam) : list Exam :=
  filter (in_range low high) l.

Definition same_day (a b : datetime) : Prop :=
  datetime_date a = datetime_date b.

(** Ascending order of records by room number, large and strict. *)
Definition room_le (a b : Exam) : Prop := room a <= room b.

Definition room_lt (a b : Exam) : Prop := room a < room b.

(** The range test on the key of a node. *)
Definition key_in_range (low high : Z) (p : Z * Exam) : bool :=
  (low <=? fst p) && (fst p <=? high).

(** The indexes that calls of [book_exam] build from the empty one. *)
Definition reachable (self : ExamBookingSystem) : Prop :=
  exists exams, self = book_all init exams.

(** The node that a descent from [t] guided by the key [k] stops at. *)
Fixpoint search (t : tree) (k : Z) : option Exam :=
  match t with
  | NoNode => None
  | Node e l r k' =>
      if k =? k' then Some e
      else if k <? k' then search l k else search r k
  end.

(** Every call of [book_exam] falls in one of four cases. *)
Inductive book_case (e : Exam) (self : ExamBookingSystem)
  : outcome bool -> Prop :=
| Case_invalid x :
    ~ valid e ->
    book_case e self (Raise (ValueError x) self)
| Case_same_day e0 :
    valid e -> search (root self) (room e) = Some e0 ->
    same_day (datetime_of (date e0)) (datetime_of (date e)) ->
    book_case e self
      (Raise (ValueError (Room_is_already_booked_for (location e) (date e)))
         self)
| Case_other_day e0 :
    valid e -> search (root self) (room e) = Some e0 ->
    ~ same_day (datetime_of (date e0)) (datetime_of (date e)) ->
    book_case e self (Return false self)
| Case_fresh t' :
    valid e -> search (root self) (room e) = None ->
    Permutation (nodes t') ((room e, e) :: nodes (root self)) ->
    (bst (root self) -> bst t') ->
    book_case e self (Return true (mkSystem t' (size self + 1))).

(** The format of a course identifier as the comments of [Exam] and of
    [validate_exam_data] give it, [ABC-123-456]: three capital letters, a
    dash, three digits, a dash, three digits, and nothing else. *)
Definition course_id_format (s : string) : bool :=
  match match_atoms course_id_atoms s with
  | Some EmptyString => true
  | _ => false
  end.

(** ** Data of [run_tests] and of the scenarios *)

Definition december_2024 (d h : Z) : datetime := mkDatetime 2024 12 d h 0 0 0.

Definition test_exams : list Exam :=
  [ mkExam "CSE-101-456" (PyInt 50) (PyDatetime (december_2024 1 9)) (PyInt 30);
    mkExam "MAT-202-789" (PyInt 45) (PyDatetime (december_2024 1 14)) (PyInt 25);
    mkExam "PHY-303-123" (PyInt 60) (PyDatetime (december_2024 2 9)) (PyInt 35);
    mkExam "CHE-404-234" (PyInt 42) (PyDatetime (december_2024 2 14)) (PyInt 28);
    mkExam "BIO-505-345" (PyInt 55) (PyDatetime (december_2024 3 9)) (PyInt 32) ].

(** The first record of [test_exams]: room 50 on 2024-12-01. *)
Definition first_exam : Exam :=
  mkExam "CSE-101-456" (PyInt 50) (PyDatetime (december_2024 1 9)) (PyInt 30).

(** [duplicate_exam] of [run_tests]: room 50 again on 2024-12-01, another
    course. *)
Definition duplicate_exam : Exam :=
  mkExam "ENG-606-567" (PyInt 50) (PyDatetime (december_2024 1 9)) (PyInt 40).

(** Room 50 again, on 2024-12-05. *)
Definition later_exam : Exam :=
  mkExam "ENG-606-567" (PyInt 50) (PyDatetime (december_2024 5 9)) (PyInt 40).

(** Five records with rooms 50, 45, 60, 42, 55 on five different days. *)
Definition exam_room_50 : Exam :=
  mkExam "CSE-101-456" (PyInt 50) (PyDatetime (december_2024 1 9)) (PyInt 30).

Definition exam_room_45 : Exam :=
  mkExam "MAT-202-789" (PyInt 45) (PyDatetime (december_2024 2 14)) (PyInt 25).

Definition exam_room_60 : Exam :=
  mkExam "PHY-303-123" (PyInt 60) (PyDatetime (december_2024 3 9)) (PyInt 35).

Definition exam_room_42 : Exam :=
  mkExam "CHE-404-234" (PyInt 42) (PyDatetime (december_2024 4 14)) (PyInt 28).

Definition exam_room_55 : Exam :=
  mkExam "BIO-505-345" (PyInt 55) (PyDatetime (december_2024 5 9)) (PyInt 32).

Definition distinct_day_exams : list Exam :=
  [exam_room_50; exam_room_45; exam_room_60; exam_room_42; exam_room_55].

(** [invalid_exam] and [invalid_students] of [run_tests]. *)
Definition invalid_exam : Exam :=
  mkExam "CSE-1-1" (PyInt 70) (PyDatetime (december_2024 4 9)) (PyInt 30).

Definition invalid_students : Exam :=
  mkExam "ENG-606-567" (PyInt 75) (PyDatetime (december_2024 4 9))
    (PyInt (-5)).

(** A course identifier with a newline after the last digit. *)
Definition newline_exam : Exam :=
  mkExam ("ABC-123-456" ++ String "010"%char EmptyString)
    (PyInt 70) (PyDatetime (december_2024 4 9)) (PyInt 30).

(** ** Shape of the tree *)






(** ** More data *)

(** An ill-formed course identifier for room 50 on 2024-12-01. *)
Definition invalid_duplicate : Exam :=
  mkExam "CSE-1-1" (PyInt 50) (PyDatetime (december_2024 1 9)) (PyInt 30).


(** ** Tactics *)

(** Run one call on a concrete tree, the room of the record being given
    by the equation [R]. *)
Ltac book_step R :=
  repeat (progress (cbn; unfold Node_init, ret; rewrite ?R)); reflexivity.

(** ** The run of [run_tests] *)

Example run_tests_case_1 :
  book_all init test_exams
  = mkSystem
      (Node (nth 0 test_exams invalid_exam)
         (Node (nth 1 test_exams invalid_exam)
            (Node (nth 3 test_exams invalid_exam) NoNode NoNode 42)
            NoNode 45)
         (Node (nth 2 test_exams invalid_exam)
            (Node (nth 4 test_exams invalid_exam) NoNode NoNode 55)
            NoNode 60)
         50)
      5
  /\ booked init test_exams = test_exams.
Proof. split; reflexivity. Qed.

Example run_tests_case_2 :
  find_exams_in_range (PyInt 40) (PyInt 52) (book_all init test_exams)
  = Return [nth 3 test_exams invalid_exam; nth 1 test_exams invalid_exam;
            nth 0 test_exams invalid_exam]
      (book_all init test_exams).
Proof. reflexivity. Qed.

Example run_tests_case_3 :
  book_exam invalid_exam (book_all init test_exams)
  = Raise (ValueError (Invalid_course_ID_format "CSE-1-1"))
      (book_all init test_exams)
  /\ book_exam duplicate_exam (book_all init test_exams)
     = Raise (ValueError (Room_is_already_booked_for (PyInt 50)
                            (PyDatetime (december_2024 1 9))))
         (book_all init test_exams)
  /\ book_exam invalid_students (book_all init test_exams)
     = Raise (ValueError (Invalid_number_of_students (PyInt (-5))))
         (book_all init test_exams).
Proof. repeat split. Qed.

(** Objects of other classes in the checked fields. *)
Example validate_classes :
  validate_exam_data (mkExam "CSE-101-456" (PyStr "50") PyNone (PyInt 0)) init
  = Raise (ValueError (Invalid_location (PyStr "50"))) init
  /\ validate_exam_data (mkExam "CSE-101-456" (PyInt 50) PyNone (PyInt 0)) init
     = Raise (ValueError Invalid_date_format) init
  /\ validate_exam_data
       (mkExam "CSE-101-456" (PyInt 50) (PyDatetime (december_2024 1 9))
          (PyInt 0)) init
     = Raise (ValueError (Invalid_number_of_students (PyInt 0))) init
  /\ validate_exam_data
       (mkExam "cse-101-456" (PyInt 0) PyNone PyNone) init
     = Raise (ValueError (Invalid_course_ID_format "cse-101-456")) init.
Proof. repeat split. Qed.

(** ** Values: basic facts *)

Lemma day_eqb_spec (a b : calendar_day) : day_eqb a b = true <-> a = b.
Proof.
  destruct a as [y m d], b as [y' m' d']; unfold day_eqb; simpl.
  rewrite !andb_true_iff, !Z.eqb_eq. split.
  - intros [[-> ->] ->]. reflexivity.
  - intros H. injection H as -> -> ->. auto.
Qed.

Lemma day_eqb_same_day (a b : datetime) :
  day_eqb (datetime_date a) (datetime_date b) = true <-> same_day a b.
Proof. apply day_eqb_spec. Qed.

(** What [validate_exam_data] establishes about the classes of the
    fields. *)
Lemma validate_typed (e : Exam) (self self' : ExamBookingSystem) (b : bool) :
  validate_exam_data e self = Return b self' ->
  b = true /\ self' = self
  /\ re_match_course_id (course_id e) = true
  /\ location e = PyInt (room e) /\ 0 < room e
  /\ date e = PyDatetime (datetime_of (date e))
  /\ num_students e = PyInt (int_of (num_students e))
  /\ 0 < int_of (num_students e).
Proof.
  unfold validate_exam_data, raise, ret, room.
  destruct (re_match_course_id (course_id e)); simpl; [|discriminate].
  destruct (location e) as [n| | |]; simpl; try discriminate.
  destruct (n <=? 0) eqn:Hn; [discriminate|].
  destruct (date e) as [|d| |]; simpl; try discriminate.
  destruct (num_students e) as [m| | |]; simpl; try discriminate.
  destruct (m <=? 0) eqn:Hm; [discriminate|].
  intros H. injection H as <- <-.
  apply Z.leb_gt in Hn, Hm. repeat split; auto.
Qed.

Lemma valid_iff (e : Exam) (self : ExamBookingSystem) :
  valid e <-> validate_exam_data e self = Return true self.
Proof.
  split; [intros H; apply H|].
  intros H self0. revert H.
  unfold validate_exam_data, raise, ret.
  destruct (negb (re_match_course_id (course_id e))); [discriminate|].
  destruct (negb (isinstance_int (location e)) || (int_of (location e) <=? 0));
    [discriminate|].
  destruct (negb (isinstance_datetime (date e))); [discriminate|].
  destruct (negb (isinstance_int (num_students e))
            || (int_of (num_students e) <=? 0)); [discriminate|].
  reflexivity.
Qed.

(** [validate_exam_data] never changes the object. *)
Lemma validate_state (e : Exam) (self : ExamBookingSystem) :
  state_after (validate_exam_data e self) = self.
Proof.
  unfold validate_exam_data, raise, ret.
  repeat match goal with |- context [if ?c then _ else _] => destruct c end;
    reflexivity.
Qed.

(** ** The tree: descent, membership and order *)

Lemma find_loop_search (t : tree) (k : Z) (dt : datetime) :
  find_loop t k dt =
  match search t k with
  | Some e =>
      if day_eqb (datetime_date (datetime_of (date e))) (datetime_date dt)
      then Some e else None
  | None => None
  end.
Proof.
  induction t as [|e l IHl r IHr k']; simpl; [reflexivity|].
  destruct (k =? k'); [reflexivity|].
  destruct (k <? k'); assumption.
Qed.

Lemma search_In (t : tree) (k : Z) (e : Exam) :
  search t k = Some e -> In (k, e) (nodes t).
Proof.
  induction t as [|e' l IHl r IHr k']; simpl; [discriminate|].
  destruct (k =? k') eqn:Hk.
  - apply Z.eqb_eq in Hk. intros [= ->]. subst.
    apply in_or_app. right. left. reflexivity.
  - destruct (k <? k'); intros H; apply in_or_app.
    + left. auto.
    + right. right. auto.
Qed.

Lemma In_keys (t : tree) (k : Z) (e : Exam) :
  In (k, e) (nodes t) -> In k (keys t).
Proof. intros H. apply (in_map fst) in H. exact H. Qed.

Lemma bst_search (t : tree) (k : Z) (e : Exam) :
  bst t -> In (k, e) (nodes t) -> search t k = Some e.
Proof.
  induction t as [|e' l IHl r IHr k']; simpl; [contradiction|].
  intros (Hl & Hr & Bl & Br) Hin.
  rewrite Forall_forall in Hl, Hr.
  apply in_app_or in Hin. destruct Hin as [Hin|[Heq|Hin]].
  - pose proof (Hl _ (In_keys _ _ _ Hin)) as Hlt.
    destruct (k =? k') eqn:Hk; [apply Z.eqb_eq in Hk; lia|].
    destruct (k <? k') eqn:Hk'; [auto|apply Z.ltb_ge in Hk'; lia].
  - injection Heq as -> ->. rewrite Z.eqb_refl. reflexivity.
  - pose proof (Hr _ (In_keys _ _ _ Hin)) as Hlt.
    destruct (k =? k') eqn:Hk; [apply Z.eqb_eq in Hk; lia|].
    destruct (k <? k') eqn:Hk'; [apply Z.ltb_lt in Hk'; lia|auto].
Qed.

Lemma bst_search_iff (t : tree) (k : Z) (e : Exam) :
  bst t -> (search t k = Some e <-> In (k, e) (nodes t)).
Proof. intros B. split; [apply search_In|apply bst_search, B]. Qed.

Lemma bst_search_None (t : tree) (k : Z) :
  bst t -> (search t k = None <-> ~ In k (keys t)).
Proof.
  intros B. split.
  - intros Hs Hin. unfold keys in Hin. apply in_map_iff in Hin.
    destruct Hin as ([k0 e] & Hk & Hin). simpl in Hk. subst k0.
    rewrite (bst_search _ _ _ B Hin) in Hs. discriminate.
  - intros Hn. destruct (search t k) as [e|] eqn:Hs; [|reflexivity].
    exfalso. apply Hn. eapply In_keys, search_In, Hs.
Qed.

(** In a search tree the in-order keys ascend strictly. *)
Lemma bst_keys_sorted (t : tree) : bst t -> StronglySorted Z.lt (keys t).
Proof.
  unfold keys.
  induction t as [|e l IHl r IHr k]; simpl; [constructor|].
  intros (Hl & Hr & Bl & Br). rewrite map_app. simpl.
  specialize (IHl Bl). specialize (IHr Br).
  fold (keys l) in *. fold (keys r) in *.
  rewrite Forall_forall in Hl, Hr.
  induction IHl as [|x xs Hxs IH Hx]; simpl.
  - constructor; [assumption|]. apply Forall_forall. exact Hr.
  - constructor.
    + apply IH. intros y Hy. apply Hl. right. exact Hy.
    + apply Forall_app. split; [exact Hx|].
      assert (x < k) by (apply Hl; left; reflexivity).
      constructor; [assumption|].
      apply Forall_forall. intros y Hy. specialize (Hr y Hy). lia.
Qed.

Lemma sorted_lt_NoDup (l : list Z) : StronglySorted Z.lt l -> NoDup l.
Proof.
  induction 1 as [|x xs Hxs IH Hx]; constructor; [|assumption].
  intros Hin. rewrite Forall_forall in Hx. specialize (Hx x Hin). lia.
Qed.

Lemma keyed_rooms (t : tree) : keyed t -> map room (inorder t) = keys t.
Proof.
  unfold keyed, inorder, keys. rewrite map_map.
  induction (nodes t) as [|[k e] ps IH]; simpl; [reflexivity|].
  intros H. inversion H as [|p ps' Hp Hps]; subst. simpl in Hp.
  rewrite IH by assumption. congruence.
Qed.

(** ** Insertion *)

Lemma perm_attach_right {A} (x a : A) (l r r' : list A) :
  Permutation r' (x :: r) -> Permutation (l ++ a :: r') (x :: l ++ a :: r).
Proof.
  intros H.
  apply Permutation_trans with (l ++ x :: a :: r).
  - apply Permutation_app_head.
    apply Permutation_trans with (a :: x :: r);
      [apply perm_skip, H|apply perm_swap].
  - apply Permutation_sym, Permutation_middle.
Qed.

(** One step of [_insert_recursive] at a node. *)
Lemma insert_Node (e : Exam) (l r : tree) (k : Z) (exam : Exam)
  (self : ExamBookingSystem) :
  _insert_recursive (Node e l r k) exam self =
  if room exam =? k then Return (false, Node e l r k) self
  else if room exam <? k then
    match l with
    | NoNode =>
        Return (true, Node e (Node_init exam) r k)
               (mkSystem (root self) (size self + 1))
    | Node _ _ _ _ =>
        match _insert_recursive l exam self with
        | Return res self' => Return (fst res, Node e (snd res) r k) self'
        | Raise x self' => Raise x self'
        end
    end
  else
    match r with
    | NoNode =>
        Return (true, Node e l (Node_init exam) k)
               (mkSystem (root self) (size self + 1))
    | Node _ _ _ _ =>
        match _insert_recursive r exam self with
        | Return res self' => Return (fst res, Node e l (snd res) k) self'
        | Raise x self' => Raise x self'
        end
    end.
Proof.
  unfold room. cbn [_insert_recursive].
  destruct (int_of (location exam) =? k); [reflexivity|].
  destruct (int_of (location exam) <? k).
  - destruct l; reflexivity.
  - destruct r; reflexivity.
Qed.

(** The descent stops at a node of the same key: nothing is changed. *)
Lemma insert_present (node : tree) (exam e0 : Exam)
  (self : ExamBookingSystem) :
  search node (room exam) = Some e0 ->
  _insert_recursive node exam self = Return (false, node) self.
Proof.
  induction node as [|e l IHl r IHr k]; [discriminate|].
  intros Hs. cbn [search] in Hs. rewrite insert_Node.
  destruct (room exam =? k); [reflexivity|].
  destruct (room exam <? k).
  - destruct l as [|el ll rl kl]; [discriminate|].
    rewrite (IHl Hs). reflexivity.
  - destruct r as [|er lr rr kr]; [discriminate|].
    rewrite (IHr Hs). reflexivity.
Qed.

(** The descent reaches an absent child: one leaf is attached there and
    the counter is incremented once. *)
Lemma insert_absent (node : tree) (exam : Exam) (self : ExamBookingSystem) :
  node <> NoNode ->
  search node (room exam) = None ->
  exists node',
    _insert_recursive node exam self =
      Return (true, node') (mkSystem (root self) (size self + 1))
    /\ node' <> NoNode
    /\ Permutation (nodes node') ((room exam, exam) :: nodes node)
    /\ (bst node -> bst node').
Proof.
  induction node as [|e l IHl r IHr k]; [congruence|]. intros _ Hs.
  cbn [search] in Hs. rewrite insert_Node.
  destruct (room exam =? k) eqn:Hk; [discriminate|].
  apply Z.eqb_neq in Hk.
  destruct (room exam <? k) eqn:Hlt.
  - apply Z.ltb_lt in Hlt.
    destruct l as [|el ll rl kl].
    + eexists. split; [reflexivity|]. split; [discriminate|].
      split; [reflexivity|].
      cbn [bst]. intros (_ & Hr & _ & Br). repeat split; auto.
      constructor; [exact Hlt|constructor].
    + cbv match. remember (Node el ll rl kl) as l eqn:El.
      destruct (IHl ltac:(subst; discriminate) Hs)
        as (l' & Hrun & _ & Hperm & Hbst).
      exists (Node e l' r k). rewrite Hrun.
      split; [reflexivity|]. split; [discriminate|]. split.
      * cbn [nodes]. rewrite app_comm_cons.
        apply Permutation_app_tail. exact Hperm.
      * cbn [bst]. intros (Hl & Hr & Bl & Br). repeat split; auto.
        apply (Permutation_map fst) in Hperm. apply Permutation_sym in Hperm.
        apply (Permutation_Forall Hperm). constructor; assumption.
  - apply Z.ltb_ge in Hlt.
    destruct r as [|er lr rr kr].
    + eexists. split; [reflexivity|]. split; [discriminate|]. split.
      * cbn [nodes Node_init]. apply perm_attach_right. reflexivity.
      * cbn [bst]. intros (Hl & _ & Bl & _). repeat split; auto.
        constructor; [unfold room in *; cbn; lia|constructor].
    + cbv match. remember (Node er lr rr kr) as r eqn:Er.
      destruct (IHr ltac:(subst; discriminate) Hs)
        as (r' & Hrun & _ & Hperm & Hbst).
      exists (Node e l r' k). rewrite Hrun.
      split; [reflexivity|]. split; [discriminate|]. split.
      * cbn [nodes]. apply perm_attach_right. exact Hperm.
      * cbn [bst]. intros (Hl & Hr & Bl & Br). repeat split; auto.
        apply (Permutation_map fst) in Hperm. apply Permutation_sym in Hperm.
        apply (Permutation_Forall Hperm).
        constructor; [cbn [fst]; lia|assumption].
Qed.

(** ** [book_exam], case by case *)

Lemma system_eta (self : ExamBookingSystem) :
  mkSystem (root self) (size self) = self.
Proof. destruct self; reflexivity. Qed.

(** A record that fails validation: the error of [validate_exam_data] is
    the error of [book_exam], and the object is as it was. *)
Lemma book_exam_invalid (e : Exam) (self self' : ExamBookingSystem)
  (x : exn) :
  validate_exam_data e self = Raise x self' ->
  book_exam e self = Raise x self.
Proof.
  intros H. pose proof (validate_state e self) as Hst.
  rewrite H in Hst. simpl in Hst. subst self'.
  unfold book_exam, bind. rewrite H. reflexivity.
Qed.

(** The room is in the tree and its record is of the same day. *)
Lemma book_exam_same_day (e e0 : Exam) (self : ExamBookingSystem) :
  valid e ->
  search (root self) (room e) = Some e0 ->
  same_day (datetime_of (date e0)) (datetime_of (date e)) ->
  book_exam e self =
  Raise (ValueError (Room_is_already_booked_for (location e) (date e))) self.
Proof.
  intros Hv Hs Hd. unfold book_exam, bind. rewrite (Hv self).
  unfold find_exam_by_location_and_date, bind, get_root, ret.
  fold (room e). rewrite find_loop_search, Hs.
  apply day_eqb_same_day in Hd. rewrite Hd. reflexivity.
Qed.

(** The room is in the tree and its record is of another day. *)
Lemma book_exam_other_day (e e0 : Exam) (self : ExamBookingSystem) :
  valid e ->
  search (root self) (room e) = Some e0 ->
  ~ same_day (datetime_of (date e0)) (datetime_of (date e)) ->
  book_exam e self = Return false self.
Proof.
  intros Hv Hs Hd. unfold book_exam, bind. rewrite (Hv self).
  unfold find_exam_by_location_and_date, bind, get_root, ret.
  fold (room e). rewrite find_loop_search, Hs.
  destruct (day_eqb _ _) eqn:Hday;
    [apply day_eqb_same_day in Hday; contradiction|].
  destruct (root self) as [|er l r k] eqn:Hroot; [discriminate|].
  rewrite <- Hroot in *. rewrite (insert_present _ _ _ _ Hs).
  unfold set_root. cbn [snd fst]. rewrite system_eta. reflexivity.
Qed.

(** The room is not in the tree. *)
Lemma book_exam_fresh (e : Exam) (self : ExamBookingSystem) :
  valid e ->
  search (root self) (room e) = None ->
  exists t',
    book_exam e self = Return true (mkSystem t' (size self + 1))
    /\ Permutation (nodes t') ((room e, e) :: nodes (root self))
    /\ (bst (root self) -> bst t').
Proof.
  intros Hv Hs. unfold book_exam, bind. rewrite (Hv self).
  unfold find_exam_by_location_and_date, bind, get_root, ret.
  fold (room e). rewrite find_loop_search, Hs.
  destruct (root self) as [|er l r k] eqn:Hroot.
  - exists (Node_init e). split; [reflexivity|].
    split; [reflexivity|]. intros _. cbn. auto.
  - rewrite <- Hroot in *.
    destruct (insert_absent (root self) e self) as (t' & Hrun & _ & Hp & Hb);
      [rewrite Hroot; discriminate|exact Hs|].
    exists t'. rewrite Hrun. split; [reflexivity|]. split; assumption.
Qed.

Lemma same_day_dec (a b : datetime) : {same_day a b} + {~ same_day a b}.
Proof.
  destruct (day_eqb (datetime_date a) (datetime_date b)) eqn:H.
  - left. apply day_eqb_same_day, H.
  - right. intros Hs. apply day_eqb_same_day in Hs. congruence.
Qed.

Lemma validate_raises_ValueError (e : Exam) (self self' : ExamBookingSystem)
  (x : exn) :
  validate_exam_data e self = Raise x self' -> exists m, x = ValueError m.
Proof.
  unfold validate_exam_data, raise, ret.
  repeat match goal with |- context [if ?c then _ else _] => destruct c end;
    intros [= <- _]; eauto.
Qed.

Lemma book_exam_cases (e : Exam) (self : ExamBookingSystem) :
  book_case e self (book_exam e self).
Proof.
  destruct (validate_exam_data e self) as [b s'|x s'] eqn:Hval.
  - destruct (validate_typed _ _ _ _ Hval) as (-> & -> & _).
    apply valid_iff in Hval.
    destruct (search (root self) (room e)) as [e0|] eqn:Hs.
    + destruct (same_day_dec (datetime_of (date e0)) (datetime_of (date e)))
        as [Hd|Hd].
      * rewrite (book_exam_same_day _ _ _ Hval Hs Hd).
        eapply Case_same_day; eassumption.
      * rewrite (book_exam_other_day _ _ _ Hval Hs Hd).
        eapply Case_other_day; eassumption.
    + destruct (book_exam_fresh _ self Hval Hs) as (t' & -> & Hp & Hb).
      apply Case_fresh; assumption.
  - rewrite (book_exam_invalid _ _ _ _ Hval).
    destruct (validate_raises_ValueError _ _ _ _ Hval) as (m & ->).
    apply Case_invalid. intros Hv. rewrite (Hv self) in Hval. discriminate.
Qed.

(** ** Invariants of the index *)

Lemma wf_init : wf init.
Proof. split; cbn; auto. constructor. Qed.

Lemma inorder_perm (t t' : tree) (e : Exam) :
  Permutation (nodes t') ((room e, e) :: nodes t) ->
  Permutation (inorder t') (e :: inorder t).
Proof. intros H. apply (Permutation_map snd) in H. exact H. Qed.

(** The invariants hold after every call, whatever its outcome. *)
Lemma book_exam_wf (e : Exam) (self : ExamBookingSystem) :
  wf self -> wf (state_after (book_exam e self)).
Proof.
  intros W. destruct (book_exam_cases e self) as [x Hv|e0 Hv Hs Hd|e0 Hv Hs Hd
    |t' Hv Hs Hp Hb]; cbn [state_after]; try exact W.
  destruct W as [B K V Sz]. split; cbn [root size].
  - auto.
  - unfold keyed. apply Permutation_sym in Hp.
    apply (Permutation_Forall Hp). constructor; [reflexivity|exact K].
  - pose proof (inorder_perm _ _ _ Hp) as Hp'. apply Permutation_sym in Hp'.
    apply (Permutation_Forall Hp'). constructor; assumption.
  - rewrite (Permutation_length Hp). cbn [List.length]. lia.
Qed.

(** What a call does to the contents and to the counter. *)
Lemma book_exam_effect (e : Exam) (self : ExamBookingSystem) :
  let o := book_exam e self in
  Permutation (inorder (root (state_after o)))
    ((if succeeded o then [e] else []) ++ inorder (root self))
  /\ size (state_after o) = size self + (if succeeded o then 1 else 0).
Proof.
  cbv zeta.
  destruct (book_exam_cases e self) as [x Hv|e0 Hv Hs Hd|e0 Hv Hs Hd
    |t' Hv Hs Hp Hb]; cbn [state_after succeeded app root size];
    try (split; [reflexivity|lia]).
  split; [apply inorder_perm, Hp|reflexivity].
Qed.

Lemma book_all_wf (exams : list Exam) (self : ExamBookingSystem) :
  wf self -> wf (book_all self exams).
Proof.
  revert self. induction exams as [|e es IH]; intros self W; cbn; auto.
  apply IH, book_exam_wf, W.
Qed.

Lemma book_all_contents (exams : list Exam) (self : ExamBookingSystem) :
  Permutation (inorder (root (book_all self exams)))
    (booked self exams ++ inorder (root self)).
Proof.
  revert self. induction exams as [|e es IH]; intros self; cbn.
  - reflexivity.
  - destruct (book_exam_effect e self) as [Hp _]. cbv zeta in Hp.
    rewrite IH, Hp.
    set (b := if succeeded (book_exam e self) then [e] else []).
    rewrite <- app_assoc.
    rewrite (app_assoc _ b), (Permutation_app_comm _ b), <- app_assoc.
    reflexivity.
Qed.

Lemma book_all_size (exams : list Exam) (self : ExamBookingSystem) :
  size (book_all self exams) = size self + successes self exams.
Proof.
  revert self. induction exams as [|e es IH]; intros self; cbn.
  - lia.
  - destruct (book_exam_effect e self) as [_ Hs]. cbv zeta in Hs.
    rewrite IH, Hs. lia.
Qed.

Lemma successes_booked (exams : list Exam) (self : ExamBookingSystem) :
  successes self exams = Z.of_nat (List.length (booked self exams)).
Proof.
  revert self. induction exams as [|e es IH]; intros self; cbn; auto.
  rewrite IH, length_app.
  destruct (succeeded (book_exam e self)); cbn [List.length]; lia.
Qed.

(** ** The stable sort *)

Lemma insert_sorted_perm (x : Exam) (l : list Exam) :
  Permutation (insert_sorted x l) (x :: l).
Proof.
  induction l as [|y l IH]; cbn; [reflexivity|].
  destruct (int_of (location x) <=? int_of (location y)); [reflexivity|].
  rewrite IH. apply perm_swap.
Qed.

Lemma sorted_by_location_perm (l : list Exam) :
  Permutation (sorted_by_location l) l.
Proof.
  induction l as [|x l IH]; cbn; [reflexivity|].
  rewrite insert_sorted_perm. apply perm_skip, IH.
Qed.

Lemma insert_sorted_sorted (x : Exam) (l : list Exam) :
  StronglySorted room_le l -> StronglySorted room_le (insert_sorted x l).
Proof.
  induction 1 as [|y l Hl IH Hy]; cbn; [repeat constructor|].
  destruct (int_of (location x) <=? int_of (location y)) eqn:Hxy.
  - apply Z.leb_le in Hxy. constructor; [constructor; assumption|].
    constructor; [exact Hxy|].
    rewrite Forall_forall in Hy |- *. intros z Hz.
    specialize (Hy z Hz). unfold room_le, room in *. lia.
  - apply Z.leb_gt in Hxy. constructor; [exact IH|].
    apply (Permutation_Forall (Permutation_sym (insert_sorted_perm x l))).
    constructor; [unfold room_le, room; lia|exact Hy].
Qed.

Lemma sorted_by_location_sorted (l : list Exam) :
  StronglySorted room_le (sorted_by_location l).
Proof.
  induction l as [|x l IH]; cbn; [constructor|].
  apply insert_sorted_sorted, IH.
Qed.

(** Two ascending lists with the same records, no two of one room, are the
    same list. *)
Lemma sorted_perm_unique (l1 l2 : list Exam) :
  StronglySorted room_le l1 -> StronglySorted room_le l2 ->
  Permutation l1 l2 -> NoDup (map room l1) -> l1 = l2.
Proof.
  intros S1. revert l2.
  induction S1 as [|x xs Sxs IH Hx]; intros l2 S2 Hp Hnd.
  - apply Permutation_nil in Hp. auto.
  - destruct S2 as [|y ys Sys Hy].
    + apply Permutation_sym, Permutation_nil in Hp. discriminate.
    + cbn in Hnd. inversion Hnd as [|r rs Hnotin Hnd']; subst.
      assert (Hxy : x = y).
      { assert (Hin1 : In x (y :: ys))
          by (apply (Permutation_in _ Hp); left; reflexivity).
        assert (Hin2 : In y (x :: xs))
          by (apply (Permutation_in _ (Permutation_sym Hp)); left;
              reflexivity).
        destruct Hin1 as [->|Hin1]; [reflexivity|].
        destruct Hin2 as [->|Hin2]; [reflexivity|].
        rewrite Forall_forall in Hx, Hy.
        specialize (Hx _ Hin2). specialize (Hy _ Hin1).
        unfold room_le in *. exfalso. apply Hnotin.
        replace (room x) with (room y) by lia.
        apply in_map, Hin2. }
      subst y. f_equal. apply IH; auto.
      eapply Permutation_cons_inv, Hp.
Qed.

(** Sorting does not depend on the order in which the records arrive, as
    long as no two are of one room. *)
Lemma sorted_by_location_perm_eq (l1 l2 : list Exam) :
  Permutation l1 l2 -> NoDup (map room l1) ->
  sorted_by_location l1 = sorted_by_location l2.
Proof.
  intros Hp Hnd. apply sorted_perm_unique.
  - apply sorted_by_location_sorted.
  - apply sorted_by_location_sorted.
  - rewrite !sorted_by_location_perm. exact Hp.
  - apply (Permutation_NoDup (l := map room l1)); [|exact Hnd].
    apply Permutation_map, Permutation_sym, sorted_by_location_perm.
Qed.

Lemma sorted_le_NoDup_lt (l : list Exam) :
  StronglySorted room_le l -> NoDup (map room l) ->
  StronglySorted room_lt l.
Proof.
  induction 1 as [|x xs Sxs IH Hx]; intros Hnd; [constructor|].
  cbn in Hnd. inversion Hnd as [|r rs Hnotin Hnd']; subst.
  constructor; [auto|].
  rewrite Forall_forall in Hx |- *. intros y Hy. specialize (Hx y Hy).
  unfold room_le, room_lt in *.
  assert (room x <> room y)
    by (intros Heq; apply Hnotin; rewrite Heq; apply in_map, Hy).
  lia.
Qed.

(** ** Range traversal *)

(** The traversal only appends to the list it is given. *)
Lemma find_in_range_acc (t : tree) (lo hi : Z) (acc : list Exam) :
  _find_in_range_recursive t lo hi acc =
  acc ++ _find_in_range_recursive t lo hi [].
Proof.
  revert acc.
  induction t as [|e l IHl r IHr k]; intros acc; cbn [_find_in_range_recursive].
  - rewrite app_nil_r. reflexivity.
  - destruct ((lo <=? k) && (k <=? hi)), (lo <? k), (hi >? k); cbn [app];
      repeat match goal with
      | |- context [_find_in_range_recursive r lo hi ?a] =>
          lazymatch a with [] => fail | _ => rewrite (IHr a) end
      | |- context [_find_in_range_recursive l lo hi ?a] =>
          lazymatch a with [] => fail | _ => rewrite (IHl a) end
      end;
      rewrite ?app_nil_r, <- ?app_assoc; reflexivity.
Qed.

Lemma filter_none {A} (f : A -> bool) (l : list A) :
  (forall x, In x l -> f x = false) -> filter f l = [].
Proof.
  induction l as [|x l IH]; cbn; intros H; [reflexivity|].
  rewrite (H x (or_introl eq_refl)). apply IH. intros y Hy. apply H. now right.
Qed.

(** On a search tree the pruned traversal misses no node of the range. *)
Lemma find_in_range_perm (t : tree) (lo hi : Z) :
  bst t ->
  Permutation (_find_in_range_recursive t lo hi [])
    (map snd (filter (key_in_range lo hi) (nodes t))).
Proof.
  induction t as [|e l IHl r IHr k]; [reflexivity|].
  intros (Hl & Hr & Bl & Br). specialize (IHl Bl). specialize (IHr Br).
  cbn [_find_in_range_recursive nodes].
  rewrite filter_app, map_app. cbn [filter app].
  unfold key_in_range at 2. cbn [fst].
  set (E := if (lo <=? k) && (k <=? hi) then [e] else []).
  replace (if (lo <=? k) && (k <=? hi) then [] ++ [e] else [])
    with E by (unfold E; destruct ((lo <=? k) && (k <=? hi)); reflexivity).
  replace (map snd
             (if (lo <=? k) && (k <=? hi)
              then (k, e) :: filter (key_in_range lo hi) (nodes r)
              else filter (key_in_range lo hi) (nodes r)))
    with (E ++ map snd (filter (key_in_range lo hi) (nodes r)))
    by (unfold E; destruct ((lo <=? k) && (k <=? hi)); reflexivity).
  assert (HL : Permutation
                 (if lo <? k then _find_in_range_recursive l lo hi E else E)
                 (map snd (filter (key_in_range lo hi) (nodes l)) ++ E)).
  { destruct (lo <? k) eqn:Hlo.
    - rewrite find_in_range_acc, IHl. apply Permutation_app_comm.
    - apply Z.ltb_ge in Hlo. rewrite filter_none; [reflexivity|].
      intros [k0 e0] Hin. rewrite Forall_forall in Hl.
      pose proof (Hl _ (In_keys _ _ _ Hin)) as Hk. cbn in Hk.
      unfold key_in_range. cbn [fst]. apply andb_false_iff. left.
      apply Z.leb_gt. lia. }
  destruct (hi >? k) eqn:Hhi.
  - rewrite find_in_range_acc, HL, IHr, <- app_assoc. reflexivity.
  - rewrite HL. rewrite (filter_none _ (nodes r)).
    + cbn [map]. rewrite app_nil_r. reflexivity.
    + intros [k0 e0] Hin. rewrite Forall_forall in Hr.
      pose proof (Hr _ (In_keys _ _ _ Hin)) as Hk. cbn in Hk.
      unfold key_in_range. cbn [fst]. apply andb_false_iff. right.
      apply Z.leb_gt. rewrite Z.gtb_ltb in Hhi. apply Z.ltb_ge in Hhi. lia.
Qed.

Lemma keyed_filter (t : tree) (lo hi : Z) :
  keyed t ->
  map snd (filter (key_in_range lo hi) (nodes t)) =
  linear_scan lo hi (inorder t).
Proof.
  unfold keyed, inorder, linear_scan.
  induction (nodes t) as [|[k e] ps IH]; [reflexivity|].
  intros H. inversion H as [|p ps' Hp Hps]; subst. cbn in Hp. subst k.
  cbn [filter map snd]. unfold key_in_range at 1, in_range at 1. cbn [fst].
  destruct ((lo <=? room e) && (room e <=? hi)); cbn [map snd];
    rewrite IH by assumption; reflexivity.
Qed.

Lemma linear_scan_perm (lo hi : Z) (l1 l2 : list Exam) :
  Permutation l1 l2 ->
  Permutation (linear_scan lo hi l1) (linear_scan lo hi l2).
Proof.
  unfold linear_scan.
  induction 1 as [|x l l' Hp IH|x y l|l l' l'' H1 IH1 H2 IH2]; cbn.
  - reflexivity.
  - destruct (in_range lo hi x); [apply perm_skip|]; exact IH.
  - destruct (in_range lo hi x), (in_range lo hi y);
      try reflexivity. apply perm_swap.
  - etransitivity; eassumption.
Qed.

Lemma linear_scan_In (lo hi : Z) (l : list Exam) (e : Exam) :
  In e (linear_scan lo hi l) <-> In e l /\ lo <= room e <= hi.
Proof.
  unfold linear_scan, in_range. rewrite filter_In, andb_true_iff, !Z.leb_le.
  tauto.
Qed.

(** A scan keeps the rooms distinct. *)
Lemma linear_scan_rooms_NoDup (lo hi : Z) (records : list Exam) :
  NoDup (map room records) -> NoDup (map room (linear_scan lo hi records)).
Proof.
  unfold linear_scan. intros Hnd.
  induction records as [|x records IH]; cbn in *; [constructor|].
  apply NoDup_cons_iff in Hnd. destruct Hnd as [Hx Hrest].
  destruct (in_range lo hi x); cbn; auto.
  apply NoDup_cons; [|auto].
  intros Hin. apply Hx. apply in_map_iff in Hin.
  destruct Hin as (z & Hz & Hin). apply filter_In in Hin.
  rewrite <- Hz. apply in_map. tauto.
Qed.

(** ** Reachable indexes *)

Lemma reachable_wf (self : ExamBookingSystem) : reachable self -> wf self.
Proof. intros (exams & ->). apply book_all_wf, wf_init. Qed.

Lemma reachable_init : reachable init.
Proof. exists []. reflexivity. Qed.

Lemma book_all_app (l1 l2 : list Exam) (self : ExamBookingSystem) :
  book_all self (l1 ++ l2) = book_all (book_all self l1) l2.
Proof.
  revert self. induction l1 as [|e l1 IH]; intros self; cbn; auto.
Qed.

Lemma reachable_step (e : Exam) (self : ExamBookingSystem) :
  reachable self -> reachable (state_after (book_exam e self)).
Proof.
  intros (exams & ->). exists (exams ++ [e]).
  rewrite book_all_app. reflexivity.
Qed.

Lemma wf_rooms_NoDup (self : ExamBookingSystem) :
  wf self -> NoDup (map room (inorder (root self))).
Proof.
  intros [B K _ _]. rewrite (keyed_rooms _ K).
  apply sorted_lt_NoDup, bst_keys_sorted, B.
Qed.

Lemma booked_valid (exams : list Exam) (self : ExamBookingSystem) (e : Exam) :
  wf self -> In e (booked self exams) -> valid e.
Proof.
  intros W Hin.
  pose proof (wf_valid _ (book_all_wf exams self W)) as V.
  rewrite Forall_forall in V. apply V.
  apply (Permutation_in _ (Permutation_sym (book_all_contents exams self))).
  apply in_or_app. left. exact Hin.
Qed.

Lemma valid_location (e : Exam) : valid e -> location e = PyInt (room e).
Proof. intros H. apply (validate_typed e init init true (H init)). Qed.

(** * Properties of the specification *)

(** C1. On the index left by any sequence of [book_exam] calls, and for
    integers [low <= high], [find_exams_in_range(low, high)] returns
    without error a list [found] such that: its members are exactly the
    booked records whose room number lies in [[low, high]]; it ascends
    by room number; it is the linear scan of the booked records through
    the same test, put in ascending order (hence the same records as the
    scan).  On the empty index the result is the empty list. *)
Theorem range_query_correct (exams : list Exam) (low high : Z) :
  low <= high ->
  let self := book_all init exams in
  let records := booked init exams in
  exists found,
    find_exams_in_range (PyInt low) (PyInt high) self = Return found self
    /\ (forall e, In e found <->
                  In e records /\ location e = PyInt (room e)
                  /\ low <= room e <= high)
    /\ StronglySorted room_lt found
    /\ found = sorted_by_location (linear_scan low high records)
    /\ Permutation found (linear_scan low high records)
    /\ find_exams_in_range (PyInt low) (PyInt high) init = Return [] init.
Proof.
  intros Hle self records.
  assert (W : wf self) by apply book_all_wf, wf_init.
  assert (Hgt : (low >? high) = false)
    by (rewrite Z.gtb_ltb; apply Z.ltb_ge; lia).
  assert (Hc : Permutation (inorder (root self)) records).
  { unfold self, records. rewrite book_all_contents. cbn.
    rewrite app_nil_r. reflexivity. }
  set (visited := _find_in_range_recursive (root self) low high []).
  assert (Hv : Permutation visited (linear_scan low high (inorder (root self)))).
  { unfold visited. rewrite (find_in_range_perm _ _ _ (wf_bst _ W)).
    rewrite (keyed_filter _ _ _ (wf_keyed _ W)). reflexivity. }
  assert (Hnd : NoDup (map room (linear_scan low high (inorder (root self))))).
  { apply linear_scan_rooms_NoDup, wf_rooms_NoDup, W. }
  assert (Hvr : Permutation visited (linear_scan low high records)).
  { rewrite Hv. apply linear_scan_perm, Hc. }
  assert (Hnd' : NoDup (map room visited)).
  { apply (Permutation_NoDup (l := map room (linear_scan low high
                                               (inorder (root self)))));
      [apply Permutation_map, Permutation_sym, Hv|exact Hnd]. }
  exists (sorted_by_location (linear_scan low high records)).
  assert (Hsp : Permutation (sorted_by_location (linear_scan low high records))
                  (linear_scan low high records))
    by apply sorted_by_location_perm.
  split; [|split; [|split; [|split; [|split]]]].
  - unfold find_exams_in_range, bind, get_root, ret, raise.
    cbn [isinstance_int andb negb int_of]. rewrite Hgt.
    fold visited. rewrite (sorted_by_location_perm_eq _ _ Hvr Hnd').
    reflexivity.
  - intros e. split.
    + intros Hin. apply (Permutation_in _ Hsp), linear_scan_In in Hin.
      destruct Hin as [Hin Hr]. split; [exact Hin|]. split; [|exact Hr].
      apply valid_location, (booked_valid exams init); [apply wf_init|exact Hin].
    + intros (Hin & _ & Hr). apply (Permutation_in _ (Permutation_sym Hsp)).
      apply linear_scan_In. split; assumption.
  - apply sorted_le_NoDup_lt; [apply sorted_by_location_sorted|].
    apply (Permutation_NoDup (l := map room visited)); [|exact Hnd'].
    apply Permutation_map. rewrite Hsp. exact Hvr.
  - reflexivity.
  - exact Hsp.
  - unfold find_exams_in_range, bind, get_root, ret, raise.
    cbn [isinstance_int andb negb int_of]. rewrite Hgt. reflexivity.
Qed.

Lemma range_query_correct_witness :
  40 <= 52 /\
  exists found,
    find_exams_in_range (PyInt 40) (PyInt 52) (book_all init test_exams)
      = Return found (book_all init test_exams)
    /\ (forall e, In e found <->
                  In e (booked init test_exams) /\ location e = PyInt (room e)
                  /\ 40 <= room e <= 52)
    /\ StronglySorted room_lt found
    /\ found = sorted_by_location (linear_scan 40 52 (booked init test_exams))
    /\ Permutation found (linear_scan 40 52 (booked init test_exams))
    /\ find_exams_in_range (PyInt 40) (PyInt 52) init = Return [] init.
Proof.
  split; [lia|]. apply (range_query_correct test_exams 40 52). lia.
Defined.

(** C2. After any sequence of [book_exam] calls on the empty index the
    tree is a search tree: at every node the keys of the left subtree are
    smaller and those of the right subtree larger than the node's
    location; the in-order traversal yields the room numbers in strictly
    ascending order; no two nodes have the same location. *)
Theorem bst_invariant (exams : list Exam) :
  let t := root (book_all init exams) in
  bst t
  /\ keys t = map room (inorder t)
  /\ StronglySorted Z.lt (map room (inorder t))
  /\ NoDup (keys t).
Proof.
  intros t.
  assert (W : wf (book_all init exams)) by apply book_all_wf, wf_init.
  destruct W as [B K _ _]. fold t in B, K.
  pose proof (bst_keys_sorted t B) as S.
  split; [exact B|]. split; [symmetry; apply keyed_rooms, K|].
  split; [rewrite (keyed_rooms t K); exact S|].
  apply sorted_lt_NoDup, S.
Qed.

(** C5. The counter [size] equals the number of successful calls of any
    sequence of [book_exam] calls on the empty index (and the number of
    nodes of the tree); a call that returns [True] adds exactly one to it,
    a call that raises or returns [False] leaves it as it was. *)
Theorem size_counts_successes (exams : list Exam) :
  size (book_all init exams) = successes init exams
  /\ successes init exams = Z.of_nat (List.length (booked init exams))
  /\ size (book_all init exams)
     = Z.of_nat (List.length (nodes (root (book_all init exams))))
  /\ (forall (self : ExamBookingSystem) (e : Exam),
        size (state_after (book_exam e self))
        = size self + (if succeeded (book_exam e self) then 1 else 0)).
Proof.
  split; [|split; [|split]].
  - rewrite book_all_size. reflexivity.
  - apply successes_booked.
  - apply wf_size, book_all_wf, wf_init.
  - intros self e. apply (book_exam_effect e self).
Qed.

(** C4. A valid record whose room is the location of a node of the index,
    the record of that node being of the same calendar day: [book_exam]
    raises the [ValueError] "Room ... is already booked for ...", which
    carries the room and the date of the request, and the index (tree
    and size) is as before the call. *)
Theorem same_day_conflict_raises (self : ExamBookingSystem) (e e0 : Exam) :
  reachable self ->
  valid e ->
  In (room e, e0) (nodes (root self)) ->
  same_day (datetime_of (date e0)) (datetime_of (date e)) ->
  book_exam e self
  = Raise (ValueError (Room_is_already_booked_for (location e) (date e))) self
  /\ root (state_after (book_exam e self)) = root self
  /\ size (state_after (book_exam e self)) = size self.
Proof.
  intros R V Hin Hd. apply reachable_wf in R.
  pose proof (bst_search _ _ _ (wf_bst _ R) Hin) as Hs.
  rewrite (book_exam_same_day _ _ _ V Hs Hd). auto.
Qed.

Lemma same_day_conflict_raises_witness :
  reachable (book_all init [first_exam])
  /\ valid duplicate_exam
  /\ In (room duplicate_exam, first_exam)
        (nodes (root (book_all init [first_exam])))
  /\ same_day (datetime_of (date first_exam))
              (datetime_of (date duplicate_exam))
  /\ book_exam duplicate_exam (book_all init [first_exam])
     = Raise (ValueError (Room_is_already_booked_for (PyInt 50)
                            (PyDatetime (december_2024 1 9))))
         (book_all init [first_exam]).
Proof.
  assert (R : reachable (book_all init [first_exam]))
    by (exists [first_exam]; reflexivity).
  assert (V : valid duplicate_exam) by (intros s; reflexivity).
  assert (I : In (room duplicate_exam, first_exam)
                (nodes (root (book_all init [first_exam]))))
    by (left; reflexivity).
  assert (D : same_day (datetime_of (date first_exam))
                (datetime_of (date duplicate_exam))) by reflexivity.
  split; [exact R|]. split; [exact V|]. split; [exact I|]. split; [exact D|].
  exact (proj1 (same_day_conflict_raises _ _ _ R V I D)).
Defined.

(** C8. With integers [low > high], [find_exams_in_range(low, high)]
    raises the [ValueError] "Start location must be less than or equal to
    end location"; the index is unchanged.  The test precedes the
    creation of the result list and the traversal. *)
Theorem invalid_range_raises (low high : Z) (self : ExamBookingSystem) :
  low > high ->
  find_exams_in_range (PyInt low) (PyInt high) self
  = Raise (ValueError Start_location_must_be_le_end_location) self.
Proof.
  intros H. unfold find_exams_in_range, raise.
  cbn [isinstance_int andb negb int_of].
  replace (low >? high) with true
    by (symmetry; rewrite Z.gtb_ltb; apply Z.ltb_lt; lia).
  reflexivity.
Qed.

Lemma invalid_range_raises_witness :
  60 > 40
  /\ find_exams_in_range (PyInt 60) (PyInt 40) (book_all init test_exams)
     = Raise (ValueError Start_location_must_be_le_end_location)
         (book_all init test_exams).
Proof.
  split; [lia|]. apply (invalid_range_raises 60 40). lia.
Defined.

(** C7. On an index built by [book_exam] calls,
    [find_exam_by_location_and_date(location, date)] returns, without
    error, the record of the node of that location when there is such a
    node and its record is of the calendar day of [date]; it returns
    [None] when no node has that location, and when the node of that
    location holds a record of another day. *)
Theorem find_by_location_and_date_correct (self : ExamBookingSystem)
  (loc : Z) (dt : datetime) :
  reachable self ->
  exists r,
    find_exam_by_location_and_date loc dt self = Return r self
    /\ (forall e, r = Some e <->
                  In (loc, e) (nodes (root self))
                  /\ same_day (datetime_of (date e)) dt)
    /\ (~ In loc (keys (root self)) -> r = None)
    /\ (forall e0, In (loc, e0) (nodes (root self)) ->
                   ~ same_day (datetime_of (date e0)) dt -> r = None).
Proof.
  intros R. apply reachable_wf in R. pose proof (wf_bst _ R) as B.
  exists (find_loop (root self) loc dt).
  split; [reflexivity|]. rewrite find_loop_search.
  split; [|split].
  - intros e.
    destruct (search (root self) loc) as [e0|] eqn:Hs.
    + destruct (day_eqb _ _) eqn:Hd.
      * split.
        -- intros [= <-]. split; [apply search_In, Hs|].
           apply day_eqb_same_day, Hd.
        -- intros [Hin _]. apply (bst_search _ _ _ B) in Hin. congruence.
      * split; [discriminate|]. intros [Hin Hsd].
        apply (bst_search _ _ _ B) in Hin.
        assert (e = e0) by congruence. subst e.
        apply day_eqb_same_day in Hsd. congruence.
    + split; [discriminate|]. intros [Hin _].
      apply (bst_search _ _ _ B) in Hin. congruence.
  - intros Hn. apply (bst_search_None _ _ B) in Hn. rewrite Hn. reflexivity.
  - intros e0 Hin Hsd. rewrite (bst_search _ _ _ B Hin).
    destruct (day_eqb _ _) eqn:Hd; [|reflexivity].
    apply day_eqb_same_day in Hd. contradiction.
Qed.

Lemma find_by_location_and_date_correct_witness :
  reachable (book_all init test_exams)
  /\ exists r,
    find_exam_by_location_and_date 45 (december_2024 1 8)
      (book_all init test_exams)
    = Return r (book_all init test_exams)
    /\ (forall e, r = Some e <->
                  In (45, e) (nodes (root (book_all init test_exams)))
                  /\ same_day (datetime_of (date e)) (december_2024 1 8))
    /\ (~ In 45 (keys (root (book_all init test_exams))) -> r = None)
    /\ (forall e0, In (45, e0) (nodes (root (book_all init test_exams))) ->
                   ~ same_day (datetime_of (date e0)) (december_2024 1 8) ->
                   r = None).
Proof.
  assert (R : reachable (book_all init test_exams))
    by (exists test_exams; reflexivity).
  split; [exact R|].
  apply (find_by_location_and_date_correct _ 45 (december_2024 1 8) R).
Defined.

(** C10. A valid record whose room is the location of a node of the
    index, the record of that node being of another calendar day:
    [book_exam] raises nothing and returns [False]; no node is created,
    the tree and the counter are as before the call.  The case differs
    from that of a record of the same day, where the call raises. *)
Theorem duplicate_location_returns_False (self : ExamBookingSystem)
  (e e0 : Exam) :
  reachable self ->
  valid e ->
  In (room e, e0) (nodes (root self)) ->
  ~ same_day (datetime_of (date e0)) (datetime_of (date e)) ->
  book_exam e self = Return false self
  /\ (forall x self', book_exam e self <> Raise x self')
  /\ root (state_after (book_exam e self)) = root self
  /\ size (state_after (book_exam e self)) = size self.
Proof.
  intros R V Hin Hd. apply reachable_wf in R.
  pose proof (bst_search _ _ _ (wf_bst _ R) Hin) as Hs.
  rewrite (book_exam_other_day _ _ _ V Hs Hd).
  repeat split; try reflexivity. discriminate.
Qed.

Lemma later_exam_other_day :
  ~ same_day (datetime_of (date first_exam)) (datetime_of (date later_exam)).
Proof. discriminate. Qed.

Lemma duplicate_location_returns_False_witness :
  reachable (book_all init [first_exam])
  /\ valid later_exam
  /\ In (room later_exam, first_exam)
        (nodes (root (book_all init [first_exam])))
  /\ ~ same_day (datetime_of (date first_exam))
                (datetime_of (date later_exam))
  /\ book_exam later_exam (book_all init [first_exam])
     = Return false (book_all init [first_exam]).
Proof.
  assert (R : reachable (book_all init [first_exam]))
    by (exists [first_exam]; reflexivity).
  assert (V : valid later_exam) by (intros s; reflexivity).
  assert (I : In (room later_exam, first_exam)
                (nodes (root (book_all init [first_exam]))))
    by (left; reflexivity).
  split; [exact R|]. split; [exact V|]. split; [exact I|].
  split; [exact later_exam_other_day|].
  exact (proj1 (duplicate_location_returns_False _ _ _ R V I
                  later_exam_other_day)).
Defined.

(** C3, at the input of the scenario: room 50 is booked on 2024-12-01;
    booking room 50 on 2024-12-05 does not fail with an error, of any
    kind: the call returns. *)
Lemma other_day_duplicate_is_no_error :
  ~ exists x self',
      book_exam later_exam (book_all init [first_exam]) = Raise x self'.
Proof. intros (x & self' & H). discriminate H. Qed.

(** C3, amended.  A valid record whose room already is a key of the tree,
    with a stored record of another calendar day: the call of
    [book_exam] raises no error and is not a success, it returns
    [False], the value that the docstring gives for a location already
    occupied; no node is created and the tree is unchanged. *)
Theorem other_day_duplicate_rejected (exams : list Exam) (e e0 : Exam) :
  valid e ->
  In (room e, e0) (nodes (root (book_all init exams))) ->
  ~ same_day (datetime_of (date e0)) (datetime_of (date e)) ->
  let o := book_exam e (book_all init exams) in
  (forall x self', o <> Raise x self')
  /\ (exists self', o = Return false self')
  /\ succeeded o = false
  /\ nodes (root (state_after o)) = nodes (root (book_all init exams))
  /\ root (state_after o) = root (book_all init exams).
Proof.
  intros V Hin Hd o.
  assert (W : wf (book_all init exams)) by apply book_all_wf, wf_init.
  pose proof (bst_search _ _ _ (wf_bst _ W) Hin) as Hs.
  unfold o. rewrite (book_exam_other_day _ _ _ V Hs Hd).
  split; [discriminate|]. split; [eexists; reflexivity|].
  repeat split.
Qed.

Lemma other_day_duplicate_rejected_witness :
  valid later_exam
  /\ In (room later_exam, first_exam)
        (nodes (root (book_all init [first_exam])))
  /\ ~ same_day (datetime_of (date first_exam))
                (datetime_of (date later_exam))
  /\ (forall x self',
        book_exam later_exam (book_all init [first_exam]) <> Raise x self')
  /\ succeeded (book_exam later_exam (book_all init [first_exam])) = false.
Proof.
  assert (V : valid later_exam) by (intros s; reflexivity).
  assert (I : In (room later_exam, first_exam)
                (nodes (root (book_all init [first_exam]))))
    by (left; reflexivity).
  pose proof (other_day_duplicate_rejected [first_exam] _ _ V I
                later_exam_other_day) as H.
  cbv zeta in H. destruct H as (H1 & _ & H3 & _).
  split; [exact V|]. split; [exact I|].
  split; [exact later_exam_other_day|]. split; [exact H1|exact H3].
Defined.

(** C9. Five valid records with rooms 50, 45, 60, 42 and 55, booked in
    that order on the empty index, are all booked, and
    [find_exams_in_range(40, 52)] then returns the records of rooms 42,
    45 and 50, in that order.  Their days play no part: the five rooms
    differ. *)
Theorem scenario_range_40_52 (e1 e2 e3 e4 e5 : Exam) :
  valid e1 -> valid e2 -> valid e3 -> valid e4 -> valid e5 ->
  room e1 = 50 -> room e2 = 45 -> room e3 = 60 -> room e4 = 42 ->
  room e5 = 55 ->
  let self := book_all init [e1; e2; e3; e4; e5] in
  booked init [e1; e2; e3; e4; e5] = [e1; e2; e3; e4; e5]
  /\ find_exams_in_range (PyInt 40) (PyInt 52) self
     = Return [e4; e2; e1] self
  /\ map room [e4; e2; e1] = [42; 45; 50].
Proof.
  intros V1 V2 V3 V4 V5 R1 R2 R3 R4 R5. unfold room in *.
  assert (H1 : book_exam e1 init
               = Return true (mkSystem (Node e1 NoNode NoNode 50) 1)).
  { unfold book_exam, bind. rewrite (V1 _). book_step R1. }
  assert (H2 : book_exam e2 (mkSystem (Node e1 NoNode NoNode 50) 1)
               = Return true
                   (mkSystem (Node e1 (Node e2 NoNode NoNode 45) NoNode 50)
                      2)).
  { unfold book_exam, bind. rewrite (V2 _). book_step R2. }
  assert (H3 : book_exam e3
                 (mkSystem (Node e1 (Node e2 NoNode NoNode 45) NoNode 50) 2)
               = Return true
                   (mkSystem (Node e1 (Node e2 NoNode NoNode 45)
                                (Node e3 NoNode NoNode 60) 50) 3)).
  { unfold book_exam, bind. rewrite (V3 _). book_step R3. }
  assert (H4 : book_exam e4
                 (mkSystem (Node e1 (Node e2 NoNode NoNode 45)
                              (Node e3 NoNode NoNode 60) 50) 3)
               = Return true
                   (mkSystem
                      (Node e1
                         (Node e2 (Node e4 NoNode NoNode 42) NoNode 45)
                         (Node e3 NoNode NoNode 60) 50) 4)).
  { unfold book_exam, bind. rewrite (V4 _). book_step R4. }
  assert (H5 : book_exam e5
                 (mkSystem
                    (Node e1
                       (Node e2 (Node e4 NoNode NoNode 42) NoNode 45)
                       (Node e3 NoNode NoNode 60) 50) 4)
               = Return true
                   (mkSystem
                      (Node e1
                         (Node e2 (Node e4 NoNode NoNode 42) NoNode 45)
                         (Node e3 (Node e5 NoNode NoNode 55) NoNode 60) 50)
                      5)).
  { unfold book_exam, bind. rewrite (V5 _). book_step R5. }
  cbn [book_all booked].
  rewrite H1; cbn [state_after succeeded]. rewrite H2; cbn [state_after succeeded].
  rewrite H3; cbn [state_after succeeded]. rewrite H4; cbn [state_after succeeded].
  rewrite H5; cbn [state_after succeeded].
  split; [reflexivity|]. split.
  - unfold find_exams_in_range, bind, get_root, ret.
    repeat (progress (cbn; rewrite ?R1, ?R2, ?R4)). reflexivity.
  - cbn. unfold room. rewrite R1, R2, R4. reflexivity.
Qed.

Lemma scenario_range_40_52_witness :
  Forall valid distinct_day_exams
  /\ map room distinct_day_exams = [50; 45; 60; 42; 55]
  /\ NoDup (map (fun e => datetime_date (datetime_of (date e)))
              distinct_day_exams)
  /\ booked init distinct_day_exams = distinct_day_exams
  /\ find_exams_in_range (PyInt 40) (PyInt 52)
       (book_all init distinct_day_exams)
     = Return [exam_room_42; exam_room_45; exam_room_50]
         (book_all init distinct_day_exams).
Proof.
  split; [repeat constructor; intros s; reflexivity|].
  split; [reflexivity|].
  split; [repeat constructor; cbn; intuition discriminate|].
  pose proof (scenario_range_40_52
                exam_room_50 exam_room_45 exam_room_60 exam_room_42
                exam_room_55
                (fun s => eq_refl) (fun s => eq_refl) (fun s => eq_refl)
                (fun s => eq_refl) (fun s => eq_refl)
                eq_refl eq_refl eq_refl eq_refl eq_refl) as S.
  cbv zeta in S. destruct S as (S1 & S2 & _). split; [exact S1|exact S2].
Defined.

(** ** Validation *)

(** The checks of [validate_exam_data] are made in the order course
    identifier, location, date, number of students; the first that fails
    gives the error, whatever the fields after it hold, and the object is
    not touched. *)
Lemma validate_order (e : Exam) (self : ExamBookingSystem) :
  (re_match_course_id (course_id e) = false ->
   validate_exam_data e self
   = Raise (ValueError (Invalid_course_ID_format (course_id e))) self)
  /\ (re_match_course_id (course_id e) = true ->
      (isinstance_int (location e) = false \/ int_of (location e) <= 0) ->
      validate_exam_data e self
      = Raise (ValueError (Invalid_location (location e))) self)
  /\ (re_match_course_id (course_id e) = true ->
      isinstance_int (location e) = true -> 0 < int_of (location e) ->
      isinstance_datetime (date e) = false ->
      validate_exam_data e self = Raise (ValueError Invalid_date_format) self)
  /\ (re_match_course_id (course_id e) = true ->
      isinstance_int (location e) = true -> 0 < int_of (location e) ->
      isinstance_datetime (date e) = true ->
      (isinstance_int (num_students e) = false
       \/ int_of (num_students e) <= 0) ->
      validate_exam_data e self
      = Raise (ValueError (Invalid_number_of_students (num_students e)))
          self)
  /\ (re_match_course_id (course_id e) = true ->
      isinstance_int (location e) = true -> 0 < int_of (location e) ->
      isinstance_datetime (date e) = true ->
      isinstance_int (num_students e) = true ->
      0 < int_of (num_students e) ->
      validate_exam_data e self = Return true self).
Proof.
  unfold validate_exam_data, raise, ret.
  repeat split.
  - intros ->. reflexivity.
  - intros -> [->| H]; cbn [negb orb]; [reflexivity|].
    apply Z.leb_le in H. rewrite H, orb_true_r. reflexivity.
  - intros -> -> H ->. apply Z.leb_gt in H. rewrite H. reflexivity.
  - intros -> -> H -> [->|H']; apply Z.leb_gt in H; rewrite H;
      cbn [negb orb]; [reflexivity|].
    apply Z.leb_le in H'. rewrite H', orb_true_r. reflexivity.
  - intros -> -> H -> -> H'. apply Z.leb_gt in H, H'. rewrite H, H'.
    reflexivity.
Qed.

(** A failed validation prevents every later step of [book_exam]: the
    error is that of the validation and the index is as before. *)
Lemma invalid_exam_not_booked (e : Exam) (self : ExamBookingSystem) :
  ~ valid e ->
  exists m,
    validate_exam_data e self = Raise (ValueError m) self
    /\ book_exam e self = Raise (ValueError m) self.
Proof.
  intros Hn.
  destruct (validate_exam_data e self) as [b s'|x s'] eqn:Hval.
  - destruct (validate_typed _ _ _ _ Hval) as (-> & -> & _).
    apply valid_iff in Hval. contradiction.
  - pose proof (book_exam_invalid _ _ _ _ Hval) as Hb.
    pose proof (validate_state e self) as Hst. rewrite Hval in Hst.
    cbn in Hst. subst s'.
    destruct (validate_raises_ValueError _ _ _ _ Hval) as (m & ->).
    exists m. split; [reflexivity|exact Hb].
Qed.

(** *** The strings that the regular expression accepts *)

Lemma match_atoms_split (p : list atom) (s rest : string) :
  match_atoms p s = Some rest ->
  exists s0, s = (s0 ++ rest)%string /\ match_atoms p s0 = Some EmptyString.
Proof.
  revert s. induction p as [|a p IH]; intros s; cbn.
  - intros [= ->]. exists EmptyString. split; reflexivity.
  - destruct s as [|c s]; [discriminate|].
    destruct (atom_matches a c) eqn:Ha; [|discriminate].
    intros H. destruct (IH _ H) as (s0 & -> & H0).
    exists (String c s0). cbn. rewrite Ha. split; [reflexivity|exact H0].
Qed.

Lemma match_atoms_app (p : list atom) (s0 rest : string) :
  match_atoms p s0 = Some EmptyString ->
  match_atoms p (s0 ++ rest) = Some rest.
Proof.
  revert s0. induction p as [|a p IH]; intros s0; cbn.
  - intros [= ->]. reflexivity.
  - destruct s0 as [|c s0]; [discriminate|]. cbn.
    destruct (atom_matches a c); [apply IH|discriminate].
Qed.

(** [re.match] accepts the identifiers of the format [ABC-123-456], and
    the same followed by one newline. *)
Lemma re_match_course_id_language (s : string) :
  re_match_course_id s = true <->
  course_id_format s = true
  \/ exists s0, course_id_format s0 = true
                /\ s = (s0 ++ String "010"%char EmptyString)%string.
Proof.
  unfold re_match_course_id, course_id_format. split.
  - destruct (match_atoms course_id_atoms s) as [rest|] eqn:Hm;
      [|discriminate].
    destruct rest as [|c [|c' rest]]; cbn [at_dollar]; try discriminate.
    + left. reflexivity.
    + intros Hc. apply Ascii.eqb_eq in Hc. subst c. right.
      destruct (match_atoms_split _ _ _ Hm) as (s0 & -> & H0).
      exists s0. rewrite H0. split; reflexivity.
  - intros [H|(s0 & H & ->)].
    + destruct (match_atoms course_id_atoms s) as [[|c r]|];
        try discriminate. reflexivity.
    + revert H.
      destruct (match_atoms course_id_atoms s0) as [[|c r]|] eqn:Hm;
        try discriminate.
      intros _. rewrite (match_atoms_app _ _ _ Hm). reflexivity.
Qed.

(** C6, at the record whose course identifier is [ABC-123-456] followed
    by a newline.  The identifier is not of the format [ABC-123-456], the
    other three fields are valid; [validate_exam_data] raises nothing and
    returns [True], and [book_exam] books the record. *)
Theorem newline_course_id_accepted :
  course_id_format (course_id newline_exam) = false
  /\ validate_exam_data newline_exam init = Return true init
  /\ book_exam newline_exam init
     = Return true (mkSystem (Node newline_exam NoNode NoNode 70) 1).
Proof. repeat split. Qed.

(** * Further properties of the code *)

(** ** Validation *)

(** X1. [validate_exam_data] returns, and then returns [True], exactly for
    the records whose course identifier the regular expression accepts,
    whose location is an [int] above zero, whose date is a [datetime] and
    whose number of students is an [int] above zero.  It never returns
    [False], and whether it returns or raises the object is untouched. *)
Theorem validate_accepts_iff (e : Exam) (self : ExamBookingSystem) :
  (validate_exam_data e self = Return true self <->
   re_match_course_id (course_id e) = true
   /\ (exists n, location e = PyInt n /\ 0 < n)
   /\ (exists d, date e = PyDatetime d)
   /\ (exists m, num_students e = PyInt m /\ 0 < m))
  /\ (forall self', validate_exam_data e self <> Return false self')
  /\ state_after (validate_exam_data e self) = self.
Proof.
  split; [|split].
  - split.
    + intros H. destruct (validate_typed _ _ _ _ H)
        as (_ & _ & Hc & Hl & Hl' & Hd & Hn & Hn').
      split; [exact Hc|]. split; [eauto|]. split; eauto.
    + intros (Hc & (n & Hl & Hn) & (d & Hd) & (m & Hm & Hm')).
      unfold validate_exam_data, ret, raise. rewrite Hc, Hl, Hd, Hm. cbn.
      apply Z.leb_gt in Hn, Hm'. rewrite Hn, Hm'. reflexivity.
  - intros self' H. apply validate_typed in H. destruct H as [H _].
    discriminate.
  - apply validate_state.
Qed.





(** X3. When validation fails, [book_exam] raises the error of the
    validation and does nothing else, whatever the index holds: an
    ill-formed record for a room that is taken on that day is reported as
    ill-formed, not as a booking conflict. *)
Theorem validation_error_comes_first (e : Exam) (self self' : ExamBookingSystem)
  (x : exn) :
  validate_exam_data e self = Raise x self' ->
  book_exam e self = Raise x self
  /\ (forall l d, x <> ValueError (Room_is_already_booked_for l d)).
Proof.
  intros H. split; [eapply book_exam_invalid, H|].
  intros l d ->. revert H. unfold validate_exam_data, raise, ret.
  repeat match goal with |- context [if ?c then _ else _] => destruct c end;
    discriminate.
Qed.

Lemma validation_error_comes_first_witness :
  validate_exam_data invalid_duplicate (book_all init [first_exam])
  = Raise (ValueError (Invalid_course_ID_format "CSE-1-1"))
      (book_all init [first_exam])
  /\ In (room invalid_duplicate, first_exam)
        (nodes (root (book_all init [first_exam])))
  /\ same_day (datetime_of (date first_exam))
              (datetime_of (date invalid_duplicate))
  /\ book_exam invalid_duplicate (book_all init [first_exam])
     = Raise (ValueError (Invalid_course_ID_format "CSE-1-1"))
         (book_all init [first_exam]).
Proof.
  split; [reflexivity|]. split; [left; reflexivity|]. split; [reflexivity|].
  exact (proj1 (validation_error_comes_first invalid_duplicate
                  (book_all init [first_exam]) (book_all init [first_exam])
                  _ eq_refl)).
Defined.

(** ** Booking *)

Lemma book_exam_keeps_nodes (e : Exam) (self : ExamBookingSystem)
  (p : Z * Exam) :
  In p (nodes (root self)) ->
  In p (nodes (root (state_after (book_exam e self)))).
Proof.
  intros Hin.
  destruct (book_exam_cases e self) as [x Hv|e0 Hv Hs Hd|e0 Hv Hs Hd
    |t' Hv Hs Hp Hb]; cbn [state_after root]; try exact Hin.
  apply (Permutation_in _ (Permutation_sym Hp)). right. exact Hin.
Qed.

Lemma book_all_keeps_nodes (exams : list Exam) (self : ExamBookingSystem)
  (p : Z * Exam) :
  In p (nodes (root self)) -> In p (nodes (root (book_all self exams))).
Proof.
  revert self. induction exams as [|e es IH]; intros self Hin; cbn; auto.
  apply IH, book_exam_keeps_nodes, Hin.
Qed.

Lemma reachable_book_all (exams : list Exam) (self : ExamBookingSystem) :
  reachable self -> reachable (book_all self exams).
Proof.
  intros (l & ->). exists (l ++ exams). rewrite book_all_app. reflexivity.
Qed.

Lemma find_in_node (self : ExamBookingSystem) (loc : Z) (dt : datetime)
  (e : Exam) :
  wf self ->
  In (loc, e) (nodes (root self)) ->
  same_day (datetime_of (date e)) dt ->
  find_exam_by_location_and_date loc dt self = Return (Some e) self.
Proof.
  intros W Hin Hd.
  unfold find_exam_by_location_and_date, bind, get_root, ret.
  rewrite find_loop_search, (bst_search _ _ _ (wf_bst _ W) Hin).
  apply day_eqb_same_day in Hd. rewrite Hd. reflexivity.
Qed.

Lemma found_in_node (self : ExamBookingSystem) (loc : Z) (dt : datetime)
  (e : Exam) :
  find_exam_by_location_and_date loc dt self = Return (Some e) self ->
  In (loc, e) (nodes (root self)) /\ same_day (datetime_of (date e)) dt.
Proof.
  unfold find_exam_by_location_and_date, bind, get_root, ret.
  rewrite find_loop_search.
  destruct (search (root self) loc) as [e0|] eqn:Hs; [|discriminate].
  destruct (day_eqb _ _) eqn:Hd; [|discriminate].
  intros [= <-]. split; [apply search_In, Hs|apply day_eqb_same_day, Hd].
Qed.

Lemma success_adds_node (e : Exam) (self : ExamBookingSystem) :
  succeeded (book_exam e self) = true ->
  valid e /\ In (room e, e) (nodes (root (state_after (book_exam e self)))).
Proof.
  destruct (book_exam_cases e self) as [x Hv|e0 Hv Hs Hd|e0 Hv Hs Hd
    |t' Hv Hs Hp Hb]; cbn [succeeded state_after root]; try discriminate.
  intros _. split; [exact Hv|].
  apply (Permutation_in _ (Permutation_sym Hp)). left. reflexivity.
Qed.





(** X6. Insert, then look up: after a call of [book_exam] that returned
    [True], [find_exam_by_location_and_date] at the room and the date of
    the record returns that very record. *)
Theorem booked_record_is_found (self self' : ExamBookingSystem) (e : Exam) :
  reachable self ->
  book_exam e self = Return true self' ->
  find_exam_by_location_and_date (room e) (datetime_of (date e)) self'
  = Return (Some e) self'.
Proof.
  intros R H.
  assert (R' : wf self').
  { replace self' with (state_after (book_exam e self))
      by (rewrite H; reflexivity).
    apply book_exam_wf, reachable_wf, R. }
  apply find_in_node; [exact R'| |reflexivity].
  replace self' with (state_after (book_exam e self))
    by (rewrite H; reflexivity).
  apply success_adds_node. rewrite H. reflexivity.
Qed.

Lemma booked_record_is_found_witness :
  reachable (book_all init [first_exam])
  /\ book_exam exam_room_45 (book_all init [first_exam])
     = Return true (book_all init [first_exam; exam_room_45])
  /\ find_exam_by_location_and_date 45 (december_2024 2 14)
       (book_all init [first_exam; exam_room_45])
     = Return (Some exam_room_45) (book_all init [first_exam; exam_room_45]).
Proof.
  assert (R : reachable (book_all init [first_exam]))
    by (exists [first_exam]; reflexivity).
  split; [exact R|]. split; [reflexivity|].
  exact (booked_record_is_found _ _ exam_room_45 R eq_refl).
Defined.

(** X7. Nothing is ever removed or replaced: a record that
    [find_exam_by_location_and_date] returns is returned again, for the
    same query, after any further calls of [book_exam]. *)
Theorem lookup_is_stable (self : ExamBookingSystem) (exams : list Exam)
  (loc : Z) (dt : datetime) (e : Exam) :
  reachable self ->
  find_exam_by_location_and_date loc dt self = Return (Some e) self ->
  find_exam_by_location_and_date loc dt (book_all self exams)
  = Return (Some e) (book_all self exams).
Proof.
  intros R H. apply found_in_node in H. destruct H as [Hin Hd].
  apply find_in_node.
  - apply book_all_wf, reachable_wf, R.
  - apply book_all_keeps_nodes, Hin.
  - exact Hd.
Qed.

Lemma lookup_is_stable_witness :
  reachable (book_all init [first_exam])
  /\ find_exam_by_location_and_date 50 (december_2024 1 23)
       (book_all init [first_exam])
     = Return (Some first_exam) (book_all init [first_exam])
  /\ find_exam_by_location_and_date 50 (december_2024 1 23)
       (book_all (book_all init [first_exam]) [later_exam; exam_room_45])
     = Return (Some first_exam)
         (book_all (book_all init [first_exam]) [later_exam; exam_room_45]).
Proof.
  assert (R : reachable (book_all init [first_exam]))
    by (exists [first_exam]; reflexivity).
  split; [exact R|]. split; [reflexivity|].
  exact (lookup_is_stable _ [later_exam; exam_room_45] 50
           (december_2024 1 23) first_exam R eq_refl).
Defined.

(** X8. Booking the same room for the same calendar day again always
    fails with the [ValueError] "Room ... is already booked for ...":
    after a successful call for a record, and any calls after it, every
    valid record of that room and that day is refused in this way. *)
Theorem rebooking_same_day_raises (self : ExamBookingSystem) (e e' : Exam)
  (exams : list Exam) :
  reachable self ->
  succeeded (book_exam e self) = true ->
  valid e' ->
  room e' = room e ->
  same_day (datetime_of (date e)) (datetime_of (date e')) ->
  let later := book_all (state_after (book_exam e self)) exams in
  book_exam e' later
  = Raise (ValueError (Room_is_already_booked_for (location e') (date e')))
      later.
Proof.
  intros R Hok V' Hroom Hd later.
  assert (W : wf later).
  { apply book_all_wf, book_exam_wf, reachable_wf, R. }
  assert (Hin : In (room e', e) (nodes (root later))).
  { rewrite Hroom. apply book_all_keeps_nodes, success_adds_node, Hok. }
  apply (book_exam_same_day _ e); [exact V'| |exact Hd].
  apply bst_search; [apply (wf_bst _ W)|exact Hin].
Qed.

Lemma rebooking_same_day_raises_witness :
  reachable init
  /\ succeeded (book_exam first_exam init) = true
  /\ valid duplicate_exam
  /\ room duplicate_exam = room first_exam
  /\ same_day (datetime_of (date first_exam))
              (datetime_of (date duplicate_exam))
  /\ book_exam duplicate_exam
       (book_all (state_after (book_exam first_exam init)) [exam_room_45])
     = Raise (ValueError (Room_is_already_booked_for (PyInt 50)
                            (PyDatetime (december_2024 1 9))))
         (book_all (state_after (book_exam first_exam init)) [exam_room_45]).
Proof.
  assert (V : valid duplicate_exam) by (intros s; reflexivity).
  split; [apply reachable_init|]. split; [reflexivity|]. split; [exact V|].
  split; [reflexivity|]. split; [reflexivity|].
  exact (rebooking_same_day_raises init first_exam duplicate_exam
           [exam_room_45] reachable_init eq_refl V eq_refl eq_refl).
Defined.

(** X9. A room is booked once and for all: when a node of the tree has
    the room number of a record, no call of [book_exam] for that record
    returns [True], now or after any further calls, whatever its day, and
    the call leaves the index as it finds it. *)
Theorem room_never_rebooked (self : ExamBookingSystem) (e : Exam)
  (exams : list Exam) :
  reachable self ->
  In (room e) (keys (root self)) ->
  succeeded (book_exam e (book_all self exams)) = false
  /\ state_after (book_exam e (book_all self exams)) = book_all self exams.
Proof.
  intros R Hin.
  assert (W : wf (book_all self exams)) by apply book_all_wf, reachable_wf, R.
  assert (Hin' : In (room e) (keys (root (book_all self exams)))).
  { unfold keys in *. apply in_map_iff in Hin.
    destruct Hin as ([k e0] & Hk & Hin). cbn in Hk. subst k.
    apply (In_keys _ _ e0), book_all_keeps_nodes, Hin. }
  destruct (book_exam_cases e (book_all self exams))
    as [x Hv|e0 Hv Hs Hd|e0 Hv Hs Hd|t' Hv Hs Hp Hb];
    cbn [succeeded state_after]; auto.
  exfalso. apply (bst_search_None _ _ (wf_bst _ W)) in Hs. contradiction.
Qed.

Lemma room_never_rebooked_witness :
  reachable (book_all init [first_exam])
  /\ In (room later_exam) (keys (root (book_all init [first_exam])))
  /\ succeeded (book_exam later_exam
                  (book_all (book_all init [first_exam]) [exam_room_45]))
     = false.
Proof.
  assert (R : reachable (book_all init [first_exam]))
    by (exists [first_exam]; reflexivity).
  assert (I : In (room later_exam) (keys (root (book_all init [first_exam]))))
    by (left; reflexivity).
  split; [exact R|]. split; [exact I|].
  exact (proj1 (room_never_rebooked _ later_exam [exam_room_45] R I)).
Defined.

(** ** Order of the records *)

Lemma sorted_rooms (l : list Exam) :
  StronglySorted Z.lt (map room l) -> StronglySorted room_lt l.
Proof.
  induction l as [|x l IH]; cbn; intros H; [constructor|].
  apply StronglySorted_inv in H. destruct H as [Hl Hx].
  constructor; [apply IH, Hl|].
  rewrite Forall_forall in Hx |- *. intros y Hy.
  apply Hx, in_map, Hy.
Qed.

Lemma room_lt_le (l : list Exam) :
  StronglySorted room_lt l -> StronglySorted room_le l.
Proof.
  induction 1 as [|x l Hl IH Hx]; constructor; [exact IH|].
  rewrite Forall_forall in Hx |- *. intros y Hy. specialize (Hx y Hy).
  unfold room_lt, room_le in *. lia.
Qed.

Lemma wf_inorder_sorted (self : ExamBookingSystem) :
  wf self -> StronglySorted room_lt (inorder (root self)).
Proof.
  intros [B K _ _]. apply sorted_rooms. rewrite (keyed_rooms _ K).
  apply bst_keys_sorted, B.
Qed.

Lemma linear_scan_sorted (lo hi : Z) (l : list Exam) :
  StronglySorted room_lt l -> StronglySorted room_lt (linear_scan lo hi l).
Proof.
  unfold linear_scan.
  induction 1 as [|x l Hl IH Hx]; cbn; [constructor|].
  destruct (in_range lo hi x); [|exact IH].
  constructor; [exact IH|].
  rewrite Forall_forall in Hx |- *. intros y Hy.
  apply filter_In in Hy. apply Hx, Hy.
Qed.

(** On a well-formed index the sort of [find_exams_in_range] produces the
    in-order traversal, restricted to the range. *)
Lemma range_inorder (self : ExamBookingSystem) (low high : Z) :
  wf self -> low <= high ->
  find_exams_in_range (PyInt low) (PyInt high) self
  = Return (linear_scan low high (inorder (root self))) self.
Proof.
  intros W Hle.
  unfold find_exams_in_range, bind, get_root, ret, raise.
  cbn [isinstance_int andb negb int_of].
  replace (low >? high) with false
    by (symmetry; rewrite Z.gtb_ltb; apply Z.ltb_ge; lia).
  f_equal.
  set (visited := _find_in_range_recursive (root self) low high []).
  assert (Hv : Permutation visited (linear_scan low high (inorder (root self)))).
  { unfold visited. rewrite (find_in_range_perm _ _ _ (wf_bst _ W)).
    rewrite (keyed_filter _ _ _ (wf_keyed _ W)). reflexivity. }
  apply sorted_perm_unique.
  - apply sorted_by_location_sorted.
  - apply room_lt_le, linear_scan_sorted, wf_inorder_sorted, W.
  - rewrite sorted_by_location_perm. exact Hv.
  - apply (Permutation_NoDup
             (l := map room (linear_scan low high (inorder (root self))))).
    + apply Permutation_map. rewrite sorted_by_location_perm.
      apply Permutation_sym, Hv.
    + apply linear_scan_rooms_NoDup, wf_rooms_NoDup, W.
Qed.

Lemma linear_scan_all (lo hi : Z) (l : list Exam) :
  Forall (fun e => lo <= room e <= hi) l -> linear_scan lo hi l = l.
Proof.
  unfold linear_scan, in_range.
  induction 1 as [|x l Hx Hl IH]; cbn; [reflexivity|].
  replace ((lo <=? room x) && (room x <=? hi)) with true.
  - rewrite IH. reflexivity.
  - symmetry. apply andb_true_iff. rewrite !Z.leb_le. exact Hx.
Qed.

Lemma linear_scan_none (lo hi : Z) (l : list Exam) :
  Forall (fun e => room e < lo \/ hi < room e) l -> linear_scan lo hi l = [].
Proof.
  unfold linear_scan, in_range.
  induction 1 as [|x l Hx Hl IH]; cbn; [reflexivity|].
  replace ((lo <=? room x) && (room x <=? hi)) with false; [exact IH|].
  symmetry. apply andb_false_iff. rewrite !Z.leb_gt. exact Hx.
Qed.

(** X10. The in-order traversal of the tree is the list of the booked
    records sorted by room number, whatever the order of the bookings. *)
Theorem inorder_is_sorted_booked (exams : list Exam) :
  inorder (root (book_all init exams))
  = sorted_by_location (booked init exams).
Proof.
  assert (W : wf (book_all init exams)) by apply book_all_wf, wf_init.
  assert (Hp : Permutation (inorder (root (book_all init exams)))
                 (booked init exams)).
  { rewrite book_all_contents. cbn. rewrite app_nil_r. reflexivity. }
  apply sorted_perm_unique.
  - apply room_lt_le, wf_inorder_sorted, W.
  - apply sorted_by_location_sorted.
  - rewrite sorted_by_location_perm. exact Hp.
  - apply wf_rooms_NoDup, W.
Qed.

(** X11. On an index built by [book_exam] calls, the result of
    [find_exams_in_range(low, high)] is the in-order traversal of the
    tree with the records outside the range left out: the sort at the
    end of the method restores the in-order sequence that the pruned
    traversal visits out of order. *)
Theorem range_is_filtered_inorder (self : ExamBookingSystem) (low high : Z) :
  reachable self ->
  low <= high ->
  find_exams_in_range (PyInt low) (PyInt high) self
  = Return (linear_scan low high (inorder (root self))) self.
Proof.
  intros R Hle. apply range_inorder; [apply reachable_wf, R|exact Hle].
Qed.

Lemma range_is_filtered_inorder_witness :
  reachable (book_all init test_exams)
  /\ 45 <= 55
  /\ find_exams_in_range (PyInt 45) (PyInt 55) (book_all init test_exams)
     = Return (linear_scan 45 55 (inorder (root (book_all init test_exams))))
         (book_all init test_exams).
Proof.
  assert (R : reachable (book_all init test_exams))
    by (exists test_exams; reflexivity).
  split; [exact R|]. split; [lia|].
  apply (range_is_filtered_inorder _ 45 55 R). lia.
Defined.

(** X13. A range that covers the room of every node returns every
    record of the index, in in-order sequence, and their number is the
    counter [size]. *)
Theorem whole_range_returns_all (self : ExamBookingSystem) (low high : Z) :
  reachable self ->
  low <= high ->
  Forall (fun k => low <= k <= high) (keys (root self)) ->
  find_exams_in_range (PyInt low) (PyInt high) self
  = Return (inorder (root self)) self
  /\ Z.of_nat (List.length (inorder (root self))) = size self.
Proof.
  intros R Hle Hall. apply reachable_wf in R.
  rewrite range_inorder by assumption.
  rewrite linear_scan_all.
  - split; [reflexivity|]. rewrite (wf_size _ R). unfold inorder.
    rewrite length_map. reflexivity.
  - rewrite <- (keyed_rooms _ (wf_keyed _ R)) in Hall.
    rewrite Forall_map in Hall. exact Hall.
Qed.

Lemma whole_range_returns_all_witness :
  reachable (book_all init test_exams)
  /\ 1 <= 100
  /\ Forall (fun k => 1 <= k <= 100) (keys (root (book_all init test_exams)))
  /\ find_exams_in_range (PyInt 1) (PyInt 100) (book_all init test_exams)
     = Return (inorder (root (book_all init test_exams)))
         (book_all init test_exams)
  /\ Z.of_nat (List.length (inorder (root (book_all init test_exams)))) = 5.
Proof.
  assert (R : reachable (book_all init test_exams))
    by (exists test_exams; reflexivity).
  assert (A : Forall (fun k => 1 <= k <= 100)
                (keys (root (book_all init test_exams))))
    by (repeat (apply Forall_cons; [cbv; intuition discriminate|]);
        apply Forall_nil).
  split; [exact R|]. split; [lia|]. split; [exact A|].
  apply (whole_range_returns_all _ 1 100 R); [lia|exact A].
Defined.

Lemma linear_scan_cons (lo hi : Z) (x : Exam) (l : list Exam) :
  linear_scan lo hi (x :: l)
  = if in_range lo hi x then x :: linear_scan lo hi l
    else linear_scan lo hi l.
Proof. reflexivity. Qed.

Lemma in_range_iff (lo hi : Z) (x : Exam) :
  in_range lo hi x = true <-> lo <= room x <= hi.
Proof. unfold in_range. rewrite andb_true_iff, !Z.leb_le. tauto. Qed.

Lemma linear_scan_split (lo mid hi : Z) (l : list Exam) :
  lo <= mid -> mid < hi ->
  StronglySorted room_lt l ->
  linear_scan lo hi l
  = linear_scan lo mid l ++ linear_scan (mid + 1) hi l.
Proof.
  intros H1 H2.
  induction 1 as [|x l Hl IH Hx]; [reflexivity|].
  rewrite !linear_scan_cons, IH.
  destruct (in_range lo hi x) eqn:E1, (in_range lo mid x) eqn:E2,
    (in_range (mid + 1) hi x) eqn:E3;
    repeat match goal with
           | H : in_range _ _ _ = true |- _ => apply in_range_iff in H
           | H : in_range _ _ _ = false |- _ =>
               apply not_true_iff_false in H; rewrite in_range_iff in H
           end;
    try lia; try reflexivity.
  rewrite (linear_scan_none lo mid l); [reflexivity|].
  rewrite Forall_forall in Hx |- *. intros y Hy. specialize (Hx y Hy).
  unfold room_lt in Hx. lia.
Qed.

(** X12. Range queries compose: for [low <= mid < high] the result of
    [find_exams_in_range(low, high)] is the result for [(low, mid)]
    followed by the result for [(mid + 1, high)]. *)
Theorem range_splits (self : ExamBookingSystem) (low mid high : Z) :
  reachable self ->
  low <= mid -> mid < high ->
  exists below above,
    find_exams_in_range (PyInt low) (PyInt mid) self = Return below self
    /\ find_exams_in_range (PyInt (mid + 1)) (PyInt high) self
       = Return above self
    /\ find_exams_in_range (PyInt low) (PyInt high) self
       = Return (below ++ above) self.
Proof.
  intros R H1 H2. apply reachable_wf in R.
  exists (linear_scan low mid (inorder (root self))),
         (linear_scan (mid + 1) high (inorder (root self))).
  rewrite !range_inorder by (assumption || lia).
  split; [reflexivity|]. split; [reflexivity|].
  rewrite (linear_scan_split low mid high) by
    (assumption || apply wf_inorder_sorted, R).
  reflexivity.
Qed.

Lemma range_splits_witness :
  reachable (book_all init test_exams)
  /\ 40 <= 47 /\ 47 < 60
  /\ exists below above,
       find_exams_in_range (PyInt 40) (PyInt 47) (book_all init test_exams)
       = Return below (book_all init test_exams)
       /\ find_exams_in_range (PyInt (47 + 1)) (PyInt 60)
            (book_all init test_exams)
          = Return above (book_all init test_exams)
       /\ find_exams_in_range (PyInt 40) (PyInt 60) (book_all init test_exams)
          = Return (below ++ above) (book_all init test_exams).
Proof.
  assert (R : reachable (book_all init test_exams))
    by (exists test_exams; reflexivity).
  split; [exact R|]. split; [lia|]. split; [lia|].
  apply (range_splits _ 40 47 60 R); lia.
Defined.

Lemma sorted_interval_length (l : list Z) (lo hi : Z) :
  StronglySorted Z.lt l ->
  Forall (fun k => lo <= k <= hi) l ->
  lo <= hi + 1 ->
  Z.of_nat (List.length l) <= hi - lo + 1.
Proof.
  intros S. revert lo.
  induction S as [|x l Sl IH Hx]; intros lo Hall Hle; cbn [List.length].
  - cbn. lia.
  - apply Forall_cons_iff in Hall. destruct Hall as [Hxr Hall].
    assert (Hl : Z.of_nat (List.length l) <= hi - (x + 1) + 1).
    { apply IH; [|lia]. rewrite Forall_forall in Hx, Hall |- *.
      intros y Hy. specialize (Hx y Hy). specialize (Hall y Hy). lia. }
    lia.
Qed.

Lemma sorted_room_lt_rooms (l : list Exam) :
  StronglySorted room_lt l -> StronglySorted Z.lt (map room l).
Proof.
  induction 1 as [|x l Hl IH Hx]; cbn; constructor; [exact IH|].
  rewrite Forall_map. exact Hx.
Qed.

(** X14. No room is returned twice: the result of
    [find_exams_in_range(low, high)] holds at most [high - low + 1]
    records, one per room number of the range at most. *)
Theorem range_result_bounded (self : ExamBookingSystem) (low high : Z) :
  reachable self ->
  low <= high ->
  exists found,
    find_exams_in_range (PyInt low) (PyInt high) self = Return found self
    /\ NoDup (map room found)
    /\ Z.of_nat (List.length found) <= high - low + 1.
Proof.
  intros R Hle. apply reachable_wf in R.
  exists (linear_scan low high (inorder (root self))).
  split; [apply range_inorder; assumption|].
  pose proof (sorted_room_lt_rooms _
                (linear_scan_sorted low high _ (wf_inorder_sorted _ R))) as S.
  split; [apply sorted_lt_NoDup, S|].
  rewrite <- (length_map room).
  apply sorted_interval_length; [exact S| |lia].
  rewrite Forall_map, Forall_forall. intros e He.
  apply linear_scan_In in He. tauto.
Qed.

Lemma range_result_bounded_witness :
  reachable (book_all init test_exams)
  /\ 42 <= 45
  /\ exists found,
       find_exams_in_range (PyInt 42) (PyInt 45) (book_all init test_exams)
       = Return found (book_all init test_exams)
       /\ NoDup (map room found)
       /\ Z.of_nat (List.length found) <= 45 - 42 + 1.
Proof.
  assert (R : reachable (book_all init test_exams))
    by (exists test_exams; reflexivity).
  split; [exact R|]. split; [lia|].
  apply (range_result_bounded _ 42 45 R). lia.
Defined.

Lemma In_nodes_inorder (t : tree) (k : Z) (e : Exam) :
  keyed t -> (In (k, e) (nodes t) <-> In e (inorder t) /\ room e = k).
Proof.
  unfold keyed, inorder. intros K. rewrite Forall_forall in K. split.
  - intros Hin. split; [apply (in_map snd) in Hin; exact Hin|].
    symmetry. apply (K _ Hin).
  - intros [Hin Hk]. apply in_map_iff in Hin.
    destruct Hin as ([k' e'] & He & Hin). cbn in He. subst e'.
    pose proof (K _ Hin) as Hk'. cbn in Hk'. congruence.
Qed.

(** X15. A range of a single room is a lookup by room alone:
    [find_exams_in_range(k, k)] returns the one record of the node of
    location [k], whatever its date, and the empty list when no node has
    that location. *)
Theorem point_range_query (self : ExamBookingSystem) (k : Z) :
  reachable self ->
  exists found,
    find_exams_in_range (PyInt k) (PyInt k) self = Return found self
    /\ (forall e, found = [e] <-> In (k, e) (nodes (root self)))
    /\ (found = [] <-> ~ In k (keys (root self))).
Proof.
  intros R. apply reachable_wf in R.
  set (found := linear_scan k k (inorder (root self))).
  assert (Hmem : forall e, In e found <-> In (k, e) (nodes (root self))).
  { intros e. unfold found.
    rewrite linear_scan_In, (In_nodes_inorder _ _ _ (wf_keyed _ R)).
    split; intros [H1 H2]; split; auto; lia. }
  assert (Hlen : Z.of_nat (List.length found) <= 1).
  { pose proof (sorted_room_lt_rooms _
                  (linear_scan_sorted k k _ (wf_inorder_sorted _ R))) as S.
    fold found in S. rewrite <- (length_map room).
    replace 1 with (k - k + 1) by lia.
    apply sorted_interval_length; [exact S| |lia].
    rewrite Forall_map, Forall_forall. intros e He.
    apply linear_scan_In in He. tauto. }
  exists found. split; [apply range_inorder; [exact R|lia]|].
  split.
  - intros e. rewrite <- Hmem. split.
    + intros ->. left. reflexivity.
    + intros Hin. destruct found as [|x [|y rest]].
      * contradiction.
      * destruct Hin as [->|[]]. reflexivity.
      * cbn [List.length] in Hlen. lia.
  - split.
    + intros Hnil Hin. unfold keys in Hin. apply in_map_iff in Hin.
      destruct Hin as ([k' e] & Hk & Hin). cbn in Hk. subst k'.
      apply Hmem in Hin. rewrite Hnil in Hin. contradiction.
    + intros Hn. destruct found as [|x rest]; [reflexivity|].
      exfalso. apply Hn. apply (In_keys _ _ x), Hmem. left. reflexivity.
Qed.

Lemma point_range_query_witness :
  reachable (book_all init [first_exam])
  /\ exists found,
       find_exams_in_range (PyInt 50) (PyInt 50) (book_all init [first_exam])
       = Return found (book_all init [first_exam])
       /\ (forall e, found = [e] <->
                     In (50, e) (nodes (root (book_all init [first_exam]))))
       /\ (found = [] <-> ~ In 50 (keys (root (book_all init [first_exam])))).
Proof.
  assert (R : reachable (book_all init [first_exam]))
    by (exists [first_exam]; reflexivity).
  split; [exact R|]. exact (point_range_query _ 50 R).
Defined.


(** X17. The time of day of a query is ignored:
    [find_exam_by_location_and_date] gives the same answer for two
    timestamps of one calendar day, on any index. *)
Theorem lookup_ignores_time_of_day (self : ExamBookingSystem) (loc : Z)
  (dt dt' : datetime) :
  same_day dt dt' ->
  find_exam_by_location_and_date loc dt self
  = find_exam_by_location_and_date loc dt' self.
Proof.
  intros H. unfold find_exam_by_location_and_date, bind, get_root, ret.
  rewrite !find_loop_search. unfold same_day in H. rewrite H. reflexivity.
Qed.

Lemma lookup_ignores_time_of_day_witness :
  same_day (december_2024 1 9) (december_2024 1 23)
  /\ find_exam_by_location_and_date 50 (december_2024 1 9)
       (book_all init test_exams)
     = find_exam_by_location_and_date 50 (december_2024 1 23)
         (book_all init test_exams).
Proof.
  split; [reflexivity|].
  exact (lookup_ignores_time_of_day (book_all init test_exams) 50
           (december_2024 1 9) (december_2024 1 23) eq_refl).
Defined.

(** ** Shape of the tree *)









Lemma insert_keeps_root (e : Exam) (l r : tree) (k : Z) (x : Exam)
  (self : ExamBookingSystem) :
  exists b l' r' self',
    _insert_recursive (Node e l r k) x self = Return (b, Node e l' r' k) self'.
Proof.
  destruct (search (Node e l r k) (room x)) as [e0|] eqn:Hs.
  - rewrite (insert_present _ _ _ _ Hs). eauto.
  - rewrite insert_Node. cbn [search] in Hs.
    destruct (room x =? k); [discriminate|].
    destruct (room x <? k).
    + destruct l as [|el ll rl kl]; [eauto|].
      destruct (insert_absent (Node el ll rl kl) x self) as (t' & -> & _);
        [discriminate|exact Hs|]. cbn [fst snd]. eauto.
    + destruct r as [|er lr rr kr]; [eauto|].
      destruct (insert_absent (Node er lr rr kr) x self) as (t' & -> & _);
        [discriminate|exact Hs|]. cbn [fst snd]. eauto.
Qed.

Lemma book_exam_keeps_root (e : Exam) (l r : tree) (k : Z) (x : Exam)
  (self : ExamBookingSystem) :
  root self = Node e l r k ->
  exists l' r', root (state_after (book_exam x self)) = Node e l' r' k.
Proof.
  intros Hroot. unfold book_exam, bind.
  destruct (validate_exam_data x self) as [b s1|y s1] eqn:Hv.
  - apply validate_typed in Hv. destruct Hv as (-> & -> & _).
    unfold find_exam_by_location_and_date, bind, get_root, ret.
    destruct (find_loop (root self) _ _); [cbn; eauto|].
    cbv beta. rewrite Hroot.
    destruct (insert_keeps_root e l r k x self) as (b & l' & r' & s' & ->).
    cbn. eauto.
  - pose proof (validate_state x self) as Hst. rewrite Hv in Hst.
    cbn in Hst. subst s1. cbn. eauto.
Qed.

Lemma book_all_keeps_root (exams : list Exam) (e : Exam) (l r : tree) (k : Z)
  (self : ExamBookingSystem) :
  root self = Node e l r k ->
  exists l' r', root (book_all self exams) = Node e l' r' k.
Proof.
  revert l r self. induction exams as [|x xs IH]; intros l r self Hroot.
  - cbn. eauto.
  - cbn [book_all].
    destruct (book_exam_keeps_root e l r k x self Hroot) as (l' & r' & H).
    apply (IH _ _ _ H).
Qed.

Lemma first_success_on_empty (e : Exam) :
  succeeded (book_exam e init) = true ->
  root (state_after (book_exam e init)) = Node e NoNode NoNode (room e).
Proof.
  unfold book_exam, bind.
  destruct (validate_exam_data e init) as [b s1|y s1] eqn:Hv;
    [|discriminate].
  apply validate_typed in Hv. destruct Hv as (-> & -> & _).
  reflexivity.
Qed.

Lemma failure_keeps_state (e : Exam) (self : ExamBookingSystem) :
  succeeded (book_exam e self) = false ->
  state_after (book_exam e self) = self.
Proof.
  destruct (book_exam_cases e self) as [x Hv|e0 Hv Hs Hd|e0 Hv Hs Hd
    |t' Hv Hs Hp Hb]; cbn [succeeded state_after]; auto. discriminate.
Qed.

(** X19. The tree is never restructured: the first record booked on the
    empty index is the root of the tree for good, whatever is booked or
    refused after it. *)
Theorem first_booking_stays_root (exams rest : list Exam) (e : Exam) :
  booked init exams = e :: rest ->
  exists l r, root (book_all init exams) = Node e l r (room e).
Proof.
  induction exams as [|x xs IH]; [discriminate|].
  cbn [booked book_all].
  destruct (succeeded (book_exam x init)) eqn:Hok.
  - intros [= -> _].
    apply (book_all_keeps_root xs e NoNode NoNode (room e)).
    apply first_success_on_empty, Hok.
  - rewrite (failure_keeps_state x init Hok). cbn [app]. exact IH.
Qed.

Lemma first_booking_stays_root_witness :
  booked init test_exams = first_exam :: tl test_exams
  /\ exists l r, root (book_all init test_exams) = Node first_exam l r 50.
Proof.
  split; [reflexivity|].
  exact (first_booking_stays_root test_exams (tl test_exams) first_exam
           eq_refl).
Defined.

(** ** Contents of the index *)

(** X20. Validation guards the tree: every record held by an index built
    by [book_exam] calls passes [validate_exam_data], sits in the node
    whose location is its own room number, and that number is above
    zero. *)
Theorem stored_records_valid (self : ExamBookingSystem) (k : Z) (e : Exam) :
  reachable self ->
  In (k, e) (nodes (root self)) ->
  valid e /\ location e = PyInt k /\ 0 < k
  /\ exists d, date e = PyDatetime d.
Proof.
  intros R Hin. apply reachable_wf in R.
  assert (V : valid e).
  { pose proof (wf_valid _ R) as HV. rewrite Forall_forall in HV.
    apply HV. apply (in_map snd) in Hin. exact Hin. }
  assert (Hk : k = room e).
  { pose proof (wf_keyed _ R) as K. unfold keyed in K.
    rewrite Forall_forall in K. apply (K _ Hin). }
  destruct (validate_typed e init init true (V init))
    as (_ & _ & _ & Hl & Hpos & Hd & _).
  subst k. split; [exact V|]. split; [exact Hl|]. split; [exact Hpos|].
  eauto.
Qed.

Lemma stored_records_valid_witness :
  reachable (book_all init test_exams)
  /\ In (45, nth 1 test_exams invalid_exam)
        (nodes (root (book_all init test_exams)))
  /\ valid (nth 1 test_exams invalid_exam).
Proof.
  assert (R : reachable (book_all init test_exams))
    by (exists test_exams; reflexivity).
  assert (I : In (45, nth 1 test_exams invalid_exam)
                (nodes (root (book_all init test_exams))))
    by (right; left; reflexivity).
  split; [exact R|]. split; [exact I|].
  exact (proj1 (stored_records_valid _ 45 _ R I)).
Defined.

(** X21. Room numbers are above zero, so a range that ends below 1
    returns the empty list on every index built by [book_exam] calls. *)
Theorem range_below_one_is_empty (self : ExamBookingSystem) (low high : Z) :
  reachable self ->
  low <= high ->
  high < 1 ->
  find_exams_in_range (PyInt low) (PyInt high) self = Return [] self.
Proof.
  intros R Hle Hhi. apply reachable_wf in R.
  rewrite range_inorder by assumption.
  rewrite linear_scan_none; [reflexivity|].
  pose proof (wf_valid _ R) as HV. rewrite Forall_forall in HV |- *.
  intros e He.
  destruct (validate_typed e init init true (HV e He init))
    as (_ & _ & _ & _ & Hpos & _).
  right. lia.
Qed.

Lemma range_below_one_is_empty_witness :
  reachable (book_all init test_exams)
  /\ -5 <= 0 /\ 0 < 1
  /\ find_exams_in_range (PyInt (-5)) (PyInt 0) (book_all init test_exams)
     = Return [] (book_all init test_exams).
Proof.
  assert (R : reachable (book_all init test_exams))
    by (exists test_exams; reflexivity).
  split; [exact R|]. split; [lia|]. split; [lia|].
  apply (range_below_one_is_empty _ (-5) 0 R); lia.
Defined.

Lemma successes_bounds (exams : list Exam) (self : ExamBookingSystem) :
  0 <= successes self exams <= Z.of_nat (List.length exams).
Proof.
  revert self. induction exams as [|e es IH]; intros self; cbn [successes].
  - cbn. lia.
  - specialize (IH (state_after (book_exam e self))).
    cbn [List.length]. destruct (succeeded (book_exam e self)); lia.
Qed.

(** X22. The counter only grows, by at most one per call: after any
    calls of [book_exam], on any index, [size] is at least what it was
    and at most that plus the number of calls. *)
Theorem size_never_decreases (self : ExamBookingSystem) (exams : list Exam) :
  size self <= size (book_all self exams)
  /\ size (book_all self exams) <= size self + Z.of_nat (List.length exams).
Proof.
  rewrite book_all_size. pose proof (successes_bounds exams self). lia.
Qed.

(** ** Insertion and lookup together *)


(** X24. Seen through the in-order traversal, a successful booking is an
    insertion into a sorted list: the traversal after the call is the
    traversal before it with the record put at its place by room
    number. *)
Theorem booking_inserts_in_order (self self' : ExamBookingSystem) (e : Exam) :
  reachable self ->
  book_exam e self = Return true self' ->
  inorder (root self') = insert_sorted e (inorder (root self)).
Proof.
  intros R H. apply reachable_wf in R.
  pose proof (book_exam_wf e self R) as W'.
  destruct (book_exam_effect e self) as [Hp _]. cbv zeta in Hp.
  rewrite H in W', Hp. cbn [state_after succeeded app] in W', Hp.
  apply sorted_perm_unique.
  - apply room_lt_le, wf_inorder_sorted, W'.
  - apply insert_sorted_sorted, room_lt_le, wf_inorder_sorted, R.
  - rewrite insert_sorted_perm. exact Hp.
  - apply wf_rooms_NoDup, W'.
Qed.

Lemma booking_inserts_in_order_witness :
  reachable (book_all init [exam_room_42; exam_room_50])
  /\ book_exam exam_room_45 (book_all init [exam_room_42; exam_room_50])
     = Return true (book_all init [exam_room_42; exam_room_50; exam_room_45])
  /\ inorder (root (book_all init [exam_room_42; exam_room_50; exam_room_45]))
     = [exam_room_42; exam_room_45; exam_room_50].
Proof.
  assert (R : reachable (book_all init [exam_room_42; exam_room_50]))
    by (exists [exam_room_42; exam_room_50]; reflexivity).
  split; [exact R|]. split; [reflexivity|].
  exact (booking_inserts_in_order _ _ exam_room_45 R eq_refl).
Defined.



